(** * read_data_service: token issuance and item CRUD

    A shallow embedding of [read_data_service/main.py].  The handlers are
    written in a small state-and-exception monad over a [World] that holds
    everything the Python process can observe or change: the wall clock,
    the Kong admin API, standard output, the dict objects on the heap and
    the [item] table behind the SQLModel session.

    The signing library (python-jose) is not part of the repository; its
    JWS layer is a pair of section variables and its round-trip contract a
    hypothesis.  [RefJose] is a small executable implementation of that
    interface, used to run the handlers on concrete inputs. *)

From Stdlib Require Import ZArith Lia String Ascii List Bool.
From stdpp Require Import base option list gmap strings.
Import ListNotations.

Set Warnings "-register-all".
Local Open Scope string_scope.
Local Open Scope list_scope.
Local Open Scope Z_scope.

(** ** Python values *)

(** The values that flow through the handlers: JSON data returned by Kong,
    claim values, and naive [datetime] objects (microseconds since
    1970-01-01T00:00:00).  JSON numbers are integers here. *)
Inductive pyval : Type :=
| PNone
| PBool (b : bool)
| PInt (z : Z)
| PStr (s : string)
| PList (l : list pyval)
| PDict (d : list (string * pyval))
| PDatetime (t : Z).

(** A dict with string keys, in insertion order. *)
Abbreviation dict := (list (string * pyval)).

(** [d.get(k)] *)
Fixpoint dict_get (d : dict) (k : string) : option pyval :=
  match d with
  | [] => None
  | (k', v) :: d' => if String.eqb k' k then Some v else dict_get d' k
  end.

(** [d[k] = v]: an existing key keeps its position, a new key goes last. *)
Fixpoint dict_set (d : dict) (k : string) (v : pyval) : dict :=
  match d with
  | [] => [(k, v)]
  | (k', v') :: d' =>
      if String.eqb k' k then (k', v) :: d' else (k', v') :: dict_set d' k v
  end.

(** [d.update(other)] *)
Definition dict_update (d other : dict) : dict :=
  fold_left (fun acc kv => dict_set acc (fst kv) (snd kv)) other d.

Definition dict_keys (d : dict) : list string := map fst d.

(** Number of entries of [d] under key [k]. *)
Fixpoint key_count (k : string) (d : dict) : nat :=
  match d with
  | [] => 0%nat
  | (k', _) :: d' => ((if String.eqb k' k then 1 else 0) + key_count k d')%nat
  end.

(** Python truthiness, as tested by [not x]. *)
Definition truthy (v : pyval) : bool :=
  match v with
  | PNone => false
  | PBool b => b
  | PInt z => negb (z =? 0)
  | PStr s => negb (String.eqb s "")
  | PList l => match l with [] => false | _ => true end
  | PDict d => match d with [] => false | _ => true end
  | PDatetime _ => true
  end.

(** ** Exceptions and results *)

Inductive exn : Type :=
| HTTPException (status_code : Z) (detail : string)
| KeyError
| IndexError
| TypeError
| OverflowError
| JSONDecodeError
| TransportError
| JWSError
| JWTError
| JWKError
| SystemError
| IntegrityError.

Inductive Result (A : Type) : Type :=
| Ok (a : A)
| Err (e : exn).
Arguments Ok {A} a.
Arguments Err {A} e.

(** [v[k]] for a string subscript. *)
Definition getitem_str (v : pyval) (k : string) : Result pyval :=
  match v with
  | PDict d => match dict_get d k with Some x => Ok x | None => Err KeyError end
  | _ => Err TypeError
  end.

(** [l[i]] on a list, with Python's negative indices. *)
Definition list_getitem {A : Type} (l : list A) (i : Z) : Result A :=
  let n := Z.of_nat (length l) in
  let j := if i <? 0 then i + n else i in
  if (0 <=? j) && (j <? n)
  then match l !! Z.to_nat j with Some x => Ok x | None => Err IndexError end
  else Err IndexError.

(** [v[i]] for an integer subscript. *)
Definition getitem_int (v : pyval) (i : Z) : Result pyval :=
  match v with
  | PList l => list_getitem l i
  | PStr s =>
      match list_getitem (list_ascii_of_string s) i with
      | Ok c => Ok (PStr (String c EmptyString))
      | Err e => Err e
      end
  | PDict _ => Err KeyError
  | _ => Err TypeError
  end.

(** ** datetime *)

Definition is_leap (year : Z) : bool :=
  (year mod 4 =? 0) && (negb (year mod 100 =? 0) || (year mod 400 =? 0)).

Definition days_before_year (year : Z) : Z :=
  let y := year - 1 in y * 365 + y / 4 - y / 100 + y / 400.

Definition days_before_month (year month : Z) : Z :=
  nth (Z.to_nat month) [0; 0; 31; 59; 90; 120; 151; 181; 212; 243; 273; 304; 334] 0
  + (if (2 <? month) && is_leap year then 1 else 0).

(** Proleptic Gregorian ordinal, 0001-01-01 being day 1. *)
Definition ymd2ord (year month day : Z) : Z :=
  days_before_year year + days_before_month year month + day.

(** [datetime(year, month, day, hour, minute, second, microsecond)] as
    microseconds since the epoch. *)
Definition datetime (year month day hour minute second microsecond : Z) : Z :=
  ((((ymd2ord year month day - ymd2ord 1970 1 1) * 24 + hour) * 60 + minute) * 60
   + second) * 1000000 + microsecond.

Definition datetime_min : Z := datetime 1 1 1 0 0 0 0.
Definition datetime_max : Z := datetime 9999 12 31 23 59 59 999999.

(** [timedelta(minutes=m)] in microseconds. *)
Definition timedelta_minutes (m : Z) : Z := m * 60 * 1000000.

(** [dt + delta]; a result outside years 1..9999 raises OverflowError. *)
Definition datetime_add (dt delta : Z) : Result Z :=
  let r := dt + delta in
  if (datetime_min <=? r) && (r <=? datetime_max) then Ok r else Err OverflowError.

(** [calendar.timegm(dt.utctimetuple())]: whole seconds since the epoch. *)
Definition timegm (dt : Z) : Z := dt / 1000000.

(** ** Records of the service *)

Module TokenData.
Record t : Type := mk { iss : string }.
End TokenData.

Module Item.
Record t : Type := mk { id : option Z; name : string; description : option string }.
End Item.

(** A row of the [item] table, keyed by its primary key. *)
Record Row : Type := mkRow { row_name : string; row_description : option string }.

(** What [client.get(url)] returns: the status and the parsed body
    ([None] when the body is not JSON). *)
Record Response : Type := mkResponse { status_code : Z; json : option pyval }.

(** ** The world *)

Record World : Type := mkWorld {
  clock : Z;                           (* what datetime.utcnow() reads *)
  kong : string -> option Response;    (* what client.get answers, by the URL string it is handed *)
  stdout : list (string * pyval);      (* lines printed: label and value *)
  requests : list string;              (* the URL strings handed to client.get *)
  heap : list dict;                    (* dict objects, by address *)
  db : gmap Z Row                      (* the item table *)
}.

Definition set_stdout (w : World) (o : list (string * pyval)) : World :=
  mkWorld (clock w) (kong w) o (requests w) (heap w) (db w).
Definition set_requests (w : World) (r : list string) : World :=
  mkWorld (clock w) (kong w) (stdout w) r (heap w) (db w).
Definition set_heap (w : World) (h : list dict) : World :=
  mkWorld (clock w) (kong w) (stdout w) (requests w) h (db w).
Definition set_db (w : World) (t : gmap Z Row) : World :=
  mkWorld (clock w) (kong w) (stdout w) (requests w) (heap w) t.

(** ** The monad of handlers *)

Definition M (A : Type) : Type := World -> Result A * World.

Definition ret {A : Type} (a : A) : M A := fun w => (Ok a, w).

Definition raise {A : Type} (e : exn) : M A := fun w => (Err e, w).

Definition bind {A B : Type} (m : M A) (k : A -> M B) : M B :=
  fun w => match m w with
           | (Ok a, w') => k a w'
           | (Err e, w') => (Err e, w')
           end.

Definition lift {A : Type} (r : Result A) : M A := fun w => (r, w).

Declare Scope py_scope.
Delimit Scope py_scope with py.
Notation "x <- m ;; k" := (bind m (fun x => k))
  (at level 100, m at next level, right associativity) : py_scope.
Notation "m ;; k" := (bind m (fun _ => k))
  (at level 100, right associativity) : py_scope.
Local Open Scope py_scope.

(** [print(f'label{value}')] *)
Definition print (label : string) (v : pyval) : M unit :=
  fun w => (Ok tt, set_stdout w (stdout w ++ [(label, v)])).

(** [datetime.utcnow()] *)
Definition utcnow : M Z := fun w => (Ok (clock w), w).

(** [client.get(url)].  The string is recorded and answered as it is
    handed over; how httpx resolves it into the request on the wire (dot
    segments, a fragment) is part of [kong]. *)
Definition client_get (url : string) : M Response :=
  fun w =>
    let w' := set_requests w (requests w ++ [url]) in
    match kong w url with
    | Some r => (Ok r, w')
    | None => (Err TransportError, w')
    end.

(** [response.json()] *)
Definition response_json (r : Response) : M pyval :=
  match json r with
  | Some v => ret v
  | None => raise JSONDecodeError
  end.

(** Allocation of a new dict object. *)
Definition dict_new (d : dict) : M nat :=
  fun w => (Ok (length (heap w)), set_heap w (heap w ++ [d])).

(** Contents of the dict object at [l].  A reference held by a Python
    program always points to an object; the other case only makes the
    function total. *)
Definition dict_read (l : nat) : M dict :=
  fun w => match heap w !! l with
           | Some d => (Ok d, w)
           | None => (Err SystemError, w)
           end.

(** In-place replacement of the contents of the dict object at [l]. *)
Definition dict_write (l : nat) (d : dict) : M unit :=
  fun w => (Ok tt, set_heap w (<[l := d]> (heap w))).

(** [data.copy()]: a new object with the same entries. *)
Definition dict_copy (data : nat) : M nat :=
  d <- dict_read data ;; dict_new d.

(** [obj.update(other)], in place. *)
Definition dict_update_at (obj : nat) (other : dict) : M unit :=
  d <- dict_read obj ;; dict_write obj (dict_update d other).

(** ** python-jose *)

Section Jose.

(** [jose.jws.sign(payload, key, headers, algorithm)]: the compact
    serialization of the JSON-encoded claims, or the exception raised. *)
Variable jws_sign : dict -> pyval -> dict -> string -> Result string.

(** [jose.jws.verify(token, key, ...)] followed by [json.loads]: the
    parsed payload of a token whose signature checks under [key]. *)
Variable jws_verify : string -> pyval -> Result pyval.

(** jose turns a [datetime] under a time claim into whole seconds. *)
Definition convert_time_claim (claims : dict) (time_claim : string) : dict :=
  match dict_get claims time_claim with
  | Some (PDatetime t) => dict_set claims time_claim (PInt (timegm t))
  | _ => claims
  end.

(** [jose.jwt.encode(claims, key, algorithm, headers)].  The time claims
    are converted in place, in the dict object it was handed. *)
Definition jwt_encode (claims : nat) (key : pyval) (algorithm : string)
    (headers : dict) : M string :=
  c <- dict_read claims ;;
  let c' := fold_left convert_time_claim ["exp"; "iat"; "nbf"] c in
  dict_write claims c' ;;
  lift (jws_sign c' key headers algorithm).

(** Decoding: the signature is checked with [key] and the payload must be
    a JSON object.  Validation of the claims against the decoder's own
    clock and expectations is the decoding party's policy and not part of
    this function. *)
Definition jwt_decode (token : string) (key : pyval) : Result dict :=
  match jws_verify token key with
  | Ok (PDict claims) => Ok claims
  | Ok _ => Err JWTError
  | Err _ => Err JWTError
  end.

(** ** JWT settings *)

Definition ALGORITHM : string := "HS256".
Definition ACCESS_TOKEN_EXPIRE_MINUTES : Z := 2.

(** ** Secret Resolver *)

(** The expression [kong_data['data'][0]["secret"]]. *)
Definition first_secret (kong_data : pyval) : Result pyval :=
  match getitem_str kong_data "data" with
  | Ok data =>
      match getitem_int data 0 with
      | Ok first => getitem_str first "secret"
      | Err e => Err e
      end
  | Err e => Err e
  end.

Definition get_secret_from_kong (consumer_id : string) : M pyval :=
  print "consumer_id: " (PStr consumer_id) ;;
  let url := "http://kong:8001/consumers/" +:+ consumer_id +:+ "/jwt" in
  response <- client_get url ;;
  if negb (status_code response =? 200) then
    raise (HTTPException (status_code response) "Failed to fetch secret from Kong")
  else
    kong_data <- response_json response ;;
    print "Kong Data: " kong_data ;;
    s <- lift (first_secret kong_data) ;;
    if negb (truthy s) then
      raise (HTTPException 404 "No JWT credentials found for the specified consumer")
    else
      secret <- lift (first_secret kong_data) ;;
      print "Secret: " secret ;;
      ret secret.

(** ** Token Issuer *)

Definition create_jwt_token (data : nat) (secret : pyval) : M string :=
  to_encode <- dict_copy data ;;
  now <- utcnow ;;
  expire <- lift (datetime_add now (timedelta_minutes ACCESS_TOKEN_EXPIRE_MINUTES)) ;;
  (* Limit expiration time to 2038-01-19 03:14:07 UTC *)
  let expire := Z.min expire (datetime 2038 1 19 3 14 7 0) in
  dict_update_at to_encode [("exp", PDatetime expire)] ;;
  let headers := [("typ", PStr "JWT"); ("alg", PStr ALGORITHM)] in
  encoded_jwt <- jwt_encode to_encode secret ALGORITHM headers ;;
  ret encoded_jwt.

Definition generate_token (data : TokenData.t) (consumer_id : string) : M pyval :=
  secret <- get_secret_from_kong consumer_id ;;
  payload <- dict_new [("iss", PStr (TokenData.iss data))] ;;
  token <- create_jwt_token payload secret ;;
  ret (PDict [("token", PStr token)]).

End Jose.

(** ** CRUD operations *)

(** What a session asks of the database. *)
Inductive sql_op : Type :=
| SqlGet (pk : Z)
| SqlUpdate (pk : Z) (name : string) (description : option string)
| SqlDelete (pk : Z)
| SqlInsert (id : option Z) (name : string) (description : option string).

(** An SQLite INTEGER is a signed 64-bit number; binding a Python int
    outside this range raises OverflowError. *)
Definition int64 (z : Z) : bool := (- 2 ^ 63 <=? z) && (z <? 2 ^ 63).

Section Crud.

(** The engine is created with [echo=True]: it writes the SQL it runs to
    standard output.  The text is the library's; here it is the lines
    written while the session carries out [op] on the table as it is. *)
Variable engine_echo : sql_op -> gmap Z Row -> list (string * pyval).

(** The primary key the database gives to a row inserted without one. *)
Variable new_rowid : gmap Z Row -> Z.

Definition sql_echo (op : sql_op) : M unit :=
  fun w => (Ok tt, set_stdout w (stdout w ++ engine_echo op (db w))).

(** [session.get(Item, item_id)] *)
Definition session_get (item_id : Z) : M (option Item.t) :=
  sql_echo (SqlGet item_id) ;;
  if int64 item_id then
    fun w =>
      (Ok (match db w !! item_id with
           | Some r => Some (Item.mk (Some item_id) (row_name r) (row_description r))
           | None => None
           end), w)
  else raise OverflowError.

(** [session.add(obj); session.commit(); session.refresh(obj)] for an
    object loaded under primary key [pk]: its row is rewritten from the
    object's attributes and read back.  The [description] column is
    declared [str] and is NOT NULL: writing None violates the constraint,
    and the session is closed without a commit. *)
Definition session_commit_update (pk : Z) (obj : Item.t) : M Item.t :=
  sql_echo (SqlUpdate pk (Item.name obj) (Item.description obj)) ;;
  match Item.description obj with
  | None => raise IntegrityError
  | Some _ =>
      fun w =>
        let r := mkRow (Item.name obj) (Item.description obj) in
        (Ok (Item.mk (Some pk) (row_name r) (row_description r)),
         set_db w (<[pk := r]> (db w)))
  end.

(** [session.delete(obj); session.commit()] *)
Definition session_commit_delete (pk : Z) : M unit :=
  sql_echo (SqlDelete pk) ;;
  fun w => (Ok tt, set_db w (delete pk (db w))).

(** [session.add(item); session.commit(); session.refresh(item)] for a new
    object: an INSERT, with the key the object carries or, when it carries
    none, the key the database assigns.  A key outside the 64-bit range
    cannot be bound; a missing description or a key that is already in the
    table violates a constraint, and the session is closed without a
    commit. *)
Definition session_commit_insert (item : Item.t) : M Item.t :=
  sql_echo (SqlInsert (Item.id item) (Item.name item) (Item.description item)) ;;
  fun w =>
    let pk := match Item.id item with
              | Some pk => pk
              | None => new_rowid (db w)
              end in
    if negb (int64 pk) then (Err OverflowError, w)
    else
      match Item.description item, db w !! pk with
      | None, _ => (Err IntegrityError, w)
      | Some _, Some _ => (Err IntegrityError, w)
      | Some _, None =>
          let r := mkRow (Item.name item) (Item.description item) in
          (Ok (Item.mk (Some pk) (row_name r) (row_description r)),
           set_db w (<[pk := r]> (db w)))
      end.

Definition create_item (item : Item.t) : M Item.t :=
  session_commit_insert item.

Definition read_item (item_id : Z) : M Item.t :=
  item <- session_get item_id ;;
  match item with
  | None => raise (HTTPException 404 "Item not found")
  | Some item => ret item
  end.

Definition update_item (item_id : Z) (item : Item.t) : M Item.t :=
  existing_item <- session_get item_id ;;
  match existing_item with
  | None => raise (HTTPException 404 "Item not found")
  | Some existing_item =>
      let existing_item :=
        Item.mk (Item.id existing_item) (Item.name item) (Item.description existing_item) in
      let existing_item :=
        Item.mk (Item.id existing_item) (Item.name existing_item) (Item.description item) in
      session_commit_update item_id existing_item
  end.

Definition delete_item (item_id : Z) : M unit :=
  item <- session_get item_id ;;
  match item with
  | None => raise (HTTPException 404 "Item not found")
  | Some _ => session_commit_delete item_id
  end.

End Crud.

(** ** A reference implementation of the JWS interface

    Not HS256: a small codec with the same shape (header, payload and a
    keyed checksum, each a field of the token), enough to run the service
    and to show that the contract assumed of the library can be met. *)

Module RefJose.

Definition is_special (c : ascii) : bool :=
  Ascii.eqb c ";"%char || Ascii.eqb c "~"%char.

(** A field is written with [~] before each special character. *)
Fixpoint escape (s : string) : string :=
  match s with
  | EmptyString => EmptyString
  | String c r =>
      if is_special c then String "~"%char (String c (escape r))
      else String c (escape r)
  end.

(** Fields are written one after the other, each closed by [;]. *)
Fixpoint join (l : list string) : string :=
  match l with
  | [] => EmptyString
  | f :: l' => escape f +:+ String ";"%char (join l')
  end.

Definition push (c : ascii) (l : list string) : list string :=
  match l with
  | [] => [String c EmptyString]
  | f :: fs => String c f :: fs
  end.

Fixpoint unjoin (s : string) : list string :=
  match s with
  | EmptyString => []
  | String c r =>
      if Ascii.eqb c ";"%char then EmptyString :: unjoin r
      else if Ascii.eqb c "~"%char then
        match r with
        | String c' r' => push c' (unjoin r')
        | EmptyString => []
        end
      else push c (unjoin r)
  end.

(** Binary digits, least significant first; [e] is the leading one. *)
Fixpoint enc_pos (p : positive) : string :=
  match p with
  | xH => "e"
  | xO p' => String "0"%char (enc_pos p')
  | xI p' => String "1"%char (enc_pos p')
  end.

Fixpoint dec_pos (s : string) : option positive :=
  match s with
  | EmptyString => None
  | String c r =>
      if Ascii.eqb c "e"%char then
        match r with EmptyString => Some xH | _ => None end
      else if Ascii.eqb c "0"%char then
        match dec_pos r with Some p => Some (xO p) | None => None end
      else if Ascii.eqb c "1"%char then
        match dec_pos r with Some p => Some (xI p) | None => None end
      else None
  end.

Definition enc_Z (z : Z) : string :=
  match z with
  | Z0 => "z"
  | Zpos p => String "p"%char (enc_pos p)
  | Zneg p => String "n"%char (enc_pos p)
  end.

Definition dec_Z (s : string) : option Z :=
  match s with
  | EmptyString => None
  | String c r =>
      if Ascii.eqb c "z"%char then
        match r with EmptyString => Some Z0 | _ => None end
      else if Ascii.eqb c "p"%char then
        match dec_pos r with Some p => Some (Zpos p) | None => None end
      else if Ascii.eqb c "n"%char then
        match dec_pos r with Some p => Some (Zneg p) | None => None end
      else None
  end.

(** Only flat values are serialized; anything else is a TypeError. *)
Definition enc_val (v : pyval) : option string :=
  match v with
  | PNone => Some "N"
  | PBool true => Some "T"
  | PBool false => Some "F"
  | PInt z => Some (String "I"%char (enc_Z z))
  | PStr s => Some (String "S"%char s)
  | _ => None
  end.

Definition dec_val (f : string) : option pyval :=
  match f with
  | EmptyString => None
  | String c r =>
      if Ascii.eqb c "N"%char then
        match r with EmptyString => Some PNone | _ => None end
      else if Ascii.eqb c "T"%char then
        match r with EmptyString => Some (PBool true) | _ => None end
      else if Ascii.eqb c "F"%char then
        match r with EmptyString => Some (PBool false) | _ => None end
      else if Ascii.eqb c "I"%char then
        match dec_Z r with Some z => Some (PInt z) | None => None end
      else if Ascii.eqb c "S"%char then Some (PStr r)
      else None
  end.

Fixpoint dict_fields (d : dict) : option (list string) :=
  match d with
  | [] => Some []
  | (k, v) :: d' =>
      match enc_val v, dict_fields d' with
      | Some f, Some fs => Some (k :: f :: fs)
      | _, _ => None
      end
  end.

Fixpoint fields_dict (l : list string) : option dict :=
  match l with
  | [] => Some []
  | k :: f :: l' =>
      match dec_val f, fields_dict l' with
      | Some v, Some d => Some ((k, v) :: d)
      | _, _ => None
      end
  | _ => None
  end.

(** A keyed checksum of the signing input. *)
Definition mac (key msg : string) : string :=
  enc_Z (fold_left (fun h c => (h * 257 + Z.of_N (N_of_ascii c)) mod 4294967291)
                   (list_ascii_of_string (key +:+ msg)) 0).

Definition sign (claims : dict) (key : pyval) (headers : dict)
    (algorithm : string) : Result string :=
  if negb (String.eqb algorithm "HS256") then Err JWSError
  else
    match key with
    | PStr k =>
        match dict_fields headers, dict_fields claims with
        | Some h, Some p =>
            let h := join h in
            let p := join p in
            Ok (join [h; p; mac k (join [h; p])])
        | _, _ => Err TypeError
        end
    | _ => Err JWKError
    end.

Definition verify (token : string) (key : pyval) : Result pyval :=
  match key with
  | PStr k =>
      match unjoin token with
      | [h; p; s] =>
          if String.eqb s (mac k (join [h; p])) then
            match fields_dict (unjoin p) with
            | Some c => Ok (PDict c)
            | None => Err JWSError
            end
          else Err JWSError
      | _ => Err JWSError
      end
  | _ => Err JWKError
  end.

End RefJose.

(** ** A reference database

    The key assigned is one more than the largest key in use, and at
    least 1. *)

Module RefDb.

Definition largest_key (t : gmap Z Row) : Z :=
  map_fold (fun k _ acc => Z.max k acc) 0 t.

Definition new_rowid (t : gmap Z Row) : Z := largest_key t + 1.

(** One line per operation, naming the statement. *)
Definition echo (op : sql_op) (t : gmap Z Row) : list (string * pyval) :=
  [("sqlalchemy.engine.Engine ",
    PStr match op with
         | SqlGet _ => "SELECT"
         | SqlUpdate _ _ _ => "UPDATE"
         | SqlDelete _ => "DELETE"
         | SqlInsert _ _ _ => "INSERT"
         end)].

End RefDb.

(** ** Concrete worlds *)

(** A Kong that knows one URL. *)
Definition kong_at (url : string) (r : Response) : string -> option Response :=
  fun u => if String.eqb u url then Some r else None.

(** Kong's answer listing the given credential records. *)
Definition credentials (status : Z) (records : list pyval) : Response :=
  mkResponse status (Some (PDict [("data", PList records); ("next", PNone)])).

(** A fresh process at time [now] talking to [k], with the dict objects
    [objs] allocated and the rows [rows] in the table. *)
Definition world_at (now : Z) (k : string -> option Response)
    (objs : list dict) (rows : gmap Z Row) : World :=
  mkWorld now k [] [] objs rows.

Definition consumer_url (consumer_id : string) : string :=
  "http://kong:8001/consumers/" +:+ consumer_id +:+ "/jwt".

(** The scenario of the spec: consumer "consumer-1" has one credential
    with secret "s3cr3t"; one payload dict is allocated, and the table
    holds one item. *)
Definition scenario_kong (status : Z) : string -> option Response :=
  kong_at (consumer_url "consumer-1")
          (credentials status [PDict [("secret", PStr "s3cr3t")]]).

Definition scenario_payload : dict := [("iss", PStr "service-a")].

Definition scenario_rows : gmap Z Row :=
  {[ 1 := mkRow "milk" (Some "two litres") ]}.

Definition scenario (now : Z) : World :=
  world_at now (scenario_kong 200) [scenario_payload] scenario_rows.

(** The same, with a payload that already has an [exp] entry. *)
Definition payload_with_exp : dict := [("exp", PInt 1); ("iss", PStr "service-a")].

Definition scenario_with_exp : World :=
  world_at 1700000000123456 (scenario_kong 200) [payload_with_exp] scenario_rows.

(** Consumer "ghost" is known to Kong but has no credentials. *)
Definition ghost_world : World :=
  world_at 0 (kong_at (consumer_url "ghost") (credentials 200 [])) [] ∅.

(** ** What the Token Issuer signs *)

(** The claims [create_jwt_token] hands to the signer for an input payload
    [d] and a clamped expiry [expire]: [exp] is set on the copy, and jose
    then converts the time claims. *)
Definition issued_claims (d : dict) (expire : Z) : dict :=
  fold_left convert_time_claim ["exp"; "iat"; "nbf"]
            (dict_update d [("exp", PDatetime expire)]).

(** The expiry after the clamp, for a token issued at [now]. *)
Definition clamped_expiry (now : Z) : Z :=
  Z.min (now + timedelta_minutes ACCESS_TOKEN_EXPIRE_MINUTES)
        (datetime 2038 1 19 3 14 7 0).

(** Kong lists a credential whose secret is null. *)
Definition null_secret_world : World :=
  world_at 0 (kong_at (consumer_url "consumer-1")
                      (credentials 200 [PDict [("secret", PNone)]])) [] ∅.

(** Kong does not know the consumer. *)
Definition unknown_consumer_world : World :=
  world_at 0 (scenario_kong 404) [] ∅.

(** A new item, without an id. *)
Definition bread : Item.t := Item.mk None "bread" None.

(** The same, with a description. *)
Definition sliced_bread : Item.t := Item.mk None "bread" (Some "sliced").

(** The values Python treats as false. *)
Definition falsy_values : list pyval :=
  [PNone; PBool false; PInt 0; PStr ""; PList []; PDict []].

(** The claims of a token issued by [generate_token] at [now]. *)
Definition token_claims (issuer : string) (now : Z) : dict :=
  [("iss", PStr issuer); ("exp", PInt (timegm (clamped_expiry now)))].

(** The standard reading of a success status: the 2xx class. *)
Definition http_success (status : Z) : bool := (200 <=? status) && (status <? 300).

(** The two failures of the Secret Resolver. *)
Definition UpstreamError (status : Z) : exn :=
  HTTPException status "Failed to fetch secret from Kong".
Definition NotFoundError : exn :=
  HTTPException 404 "No JWT credentials found for the specified consumer".

(** Everything but the heap is as before, and every dict object that
    existed before still has its contents. *)
Definition only_allocates (w w' : World) : Prop :=
  clock w' = clock w /\ kong w' = kong w /\ stdout w' = stdout w /\
  requests w' = requests w /\ db w' = db w /\
  forall (l : nat) (d : dict), heap w !! l = Some d -> heap w' !! l = Some d.

(** The world after the resolver has logged the consumer and sent its
    request. *)
Definition after_request (w : World) (consumer_id : string) : World :=
  set_requests (set_stdout w (stdout w ++ [("consumer_id: ", PStr consumer_id)]))
               (requests w ++ [consumer_url consumer_id]).

Definition after_response (w : World) (consumer_id : string) (kong_data : pyval) : World :=
  set_stdout (after_request w consumer_id)
             (stdout (after_request w consumer_id) ++ [("Kong Data: ", kong_data)]).

Definition after_secret (w : World) (consumer_id : string) (kong_data secret : pyval) : World :=
  set_stdout (after_response w consumer_id kong_data)
             (stdout (after_response w consumer_id kong_data) ++ [("Secret: ", secret)]).

(** The world after the engine has logged [op]. *)
Definition logged_by (engine_echo : sql_op -> gmap Z Row -> list (string * pyval))
    (w : World) (op : sql_op) : World :=
  set_stdout w (stdout w ++ engine_echo op (db w)).

(** The handler only wrote to standard output: the log has grown, and the
    clock, Kong, the requests, the dict objects and the table are as
    before. *)
Definition only_logs (w w' : World) : Prop :=
  clock w' = clock w /\ kong w' = kong w /\ requests w' = requests w /\
  heap w' = heap w /\ db w' = db w /\
  exists log : list (string * pyval), stdout w' = stdout w ++ log.

(** * Properties *)

(** ** Dates *)

Example datetime_epoch : datetime 1970 1 1 0 0 0 0 = 0.
Proof. reflexivity. Qed.

Example datetime_leap_day : datetime 2024 3 1 0 0 0 0 = 1709251200 * 1000000.
Proof. reflexivity. Qed.

Example datetime_range :
  datetime_min = -62135596800 * 1000000 /\
  datetime_max = 253402300799 * 1000000 + 999999.
Proof. split; reflexivity. Qed.

Example timegm_before_epoch : timegm (datetime 1969 12 31 23 59 59 500000) = -1.
Proof. reflexivity. Qed.

Lemma ceiling_seconds : datetime 2038 1 19 3 14 7 0 = 2147483647 * 1000000.
Proof. reflexivity. Qed.

Lemma ceiling_is_int32_max : timegm (datetime 2038 1 19 3 14 7 0) = 2 ^ 31 - 1.
Proof. reflexivity. Qed.

Lemma window_microseconds :
  timedelta_minutes ACCESS_TOKEN_EXPIRE_MINUTES = 120 * 1000000.
Proof. reflexivity. Qed.

Lemma timegm_floor (t : Z) : timegm t * 1000000 <= t < timegm t * 1000000 + 1000000.
Proof.
  unfold timegm. pose proof (Z.mod_pos_bound t 1000000 ltac:(lia)).
  pose proof (Z.div_mod t 1000000 ltac:(lia)). lia.
Qed.

Lemma timegm_add_seconds (t s : Z) : timegm (t + s * 1000000) = timegm t + s.
Proof. unfold timegm. apply Z.div_add. lia. Qed.

Lemma timegm_mono (a b : Z) : a <= b -> timegm a <= timegm b.
Proof. intros H. unfold timegm. apply Z.div_le_mono; lia. Qed.

Lemma clamped_expiry_le_ceiling (now : Z) :
  clamped_expiry now <= datetime 2038 1 19 3 14 7 0.
Proof. unfold clamped_expiry. apply Z.le_min_r. Qed.

Lemma clamped_expiry_after_now (now : Z) :
  now < datetime 2038 1 19 3 14 7 0 -> now < timegm (clamped_expiry now) * 1000000.
Proof.
  intros Hnow. unfold clamped_expiry. rewrite window_microseconds.
  rewrite ceiling_seconds in *.
  destruct (Z.min_spec (now + 120 * 1000000) (2147483647 * 1000000)) as [[_ ->]|[_ ->]].
  - rewrite timegm_add_seconds. pose proof (timegm_floor now). lia.
  - unfold timegm. rewrite Z.div_mul by lia. lia.
Qed.

(** ** Dicts *)

Example dict_set_keeps_position :
  dict_set [("exp", PInt 1); ("iss", PStr "a")] "exp" (PInt 2)
    = [("exp", PInt 2); ("iss", PStr "a")].
Proof. reflexivity. Qed.

Example getitem_int_last : getitem_int (PList [PInt 1; PInt 2]) (-1) = Ok (PInt 2).
Proof. reflexivity. Qed.

Example getitem_int_empty : getitem_int (PList []) 0 = Err IndexError.
Proof. reflexivity. Qed.

Lemma dict_get_set_eq (d : dict) (k : string) (v : pyval) :
  dict_get (dict_set d k v) k = Some v.
Proof.
  induction d as [|[k' v'] d IH]; simpl.
  - now rewrite String.eqb_refl.
  - destruct (String.eqb k' k) eqn:E; simpl; rewrite E; auto.
Qed.

Lemma dict_get_set_ne (d : dict) (k k' : string) (v : pyval) :
  k <> k' -> dict_get (dict_set d k v) k' = dict_get d k'.
Proof.
  intros Hne. induction d as [|[k0 v0] d IH]; simpl.
  - apply String.eqb_neq in Hne. now rewrite Hne.
  - destruct (String.eqb k0 k) eqn:E; simpl.
    + apply String.eqb_eq in E. subst k0.
      apply String.eqb_neq in Hne. now rewrite Hne.
    + now rewrite IH.
Qed.

Lemma dict_set_keys_present (d : dict) (k : string) (v x : pyval) :
  dict_get d k = Some x -> dict_keys (dict_set d k v) = dict_keys d.
Proof.
  induction d as [|[k' v'] d IH]; simpl; [discriminate|].
  destruct (String.eqb k' k) eqn:E; simpl; intros H; [reflexivity|].
  f_equal. now apply IH.
Qed.

Lemma key_count_absent (d : dict) (k : string) :
  k ∉ dict_keys d -> key_count k d = 0%nat.
Proof.
  induction d as [|[k' v'] d IH]; simpl; [reflexivity|].
  intros Hn. apply not_elem_of_cons in Hn as [Hne Hn].
  destruct (String.eqb k' k) eqn:E.
  - apply String.eqb_eq in E. congruence.
  - simpl. now apply IH.
Qed.

Lemma key_count_set (d : dict) (k : string) (v : pyval) :
  NoDup (dict_keys d) -> key_count k (dict_set d k v) = 1%nat.
Proof.
  induction d as [|[k' v'] d IH]; simpl; intros Hnd.
  - now rewrite String.eqb_refl.
  - apply NoDup_cons in Hnd as [Hnotin Hnd].
    destruct (String.eqb k' k) eqn:E; simpl; rewrite E.
    + apply String.eqb_eq in E. subst k'.
      now rewrite (key_count_absent d k Hnotin).
    + simpl. now apply IH.
Qed.

Lemma key_count_keys (k : string) (d d' : dict) :
  dict_keys d = dict_keys d' -> key_count k d = key_count k d'.
Proof.
  revert d'. induction d as [|[k1 v1] d IH]; intros [|[k2 v2] d']; simpl;
    try discriminate; [reflexivity|].
  intros H. injection H as -> H. f_equal. now apply IH.
Qed.

Lemma convert_time_claim_keys (c : dict) (tc : string) :
  dict_keys (convert_time_claim c tc) = dict_keys c.
Proof.
  unfold convert_time_claim.
  destruct (dict_get c tc) as [[]|] eqn:E; try reflexivity.
  eapply dict_set_keys_present; eauto.
Qed.

Lemma convert_time_claim_other (c : dict) (tc k : string) :
  tc <> k -> dict_get (convert_time_claim c tc) k = dict_get c k.
Proof.
  intros Hne. unfold convert_time_claim.
  destruct (dict_get c tc) as [[]|]; try reflexivity.
  now apply dict_get_set_ne.
Qed.

(** ** The signed claims *)

Lemma issued_claims_exp (d : dict) (expire : Z) :
  dict_get (issued_claims d expire) "exp" = Some (PInt (timegm expire)).
Proof.
  unfold issued_claims, dict_update. simpl.
  rewrite !convert_time_claim_other by discriminate.
  unfold convert_time_claim. rewrite dict_get_set_eq.
  apply dict_get_set_eq.
Qed.

Lemma issued_claims_other (d : dict) (expire : Z) (k : string) :
  k <> "exp" -> k <> "iat" -> k <> "nbf" ->
  dict_get (issued_claims d expire) k = dict_get d k.
Proof.
  intros H1 H2 H3. unfold issued_claims, dict_update. simpl.
  rewrite !convert_time_claim_other by congruence.
  now apply dict_get_set_ne.
Qed.

Lemma issued_claims_one_exp (d : dict) (expire : Z) :
  NoDup (dict_keys d) -> key_count "exp" (issued_claims d expire) = 1%nat.
Proof.
  intros Hnd. unfold issued_claims, dict_update. simpl.
  rewrite (key_count_keys "exp" _ (dict_set d "exp" (PDatetime expire))).
  - now apply key_count_set.
  - now rewrite !convert_time_claim_keys.
Qed.

(** ** Running the Token Issuer *)

Lemma heap_alloc_lookup (h : list dict) (d : dict) :
  (h ++ [d]) !! length h = Some d.
Proof. now apply list_lookup_middle. Qed.

Lemma heap_after_alloc (w : World) (d : dict) :
  heap (set_heap w (heap w ++ [d])) !! length (heap w) = Some d.
Proof. apply heap_alloc_lookup. Qed.

Lemma heap_alloc_insert (h : list dict) (d c : dict) :
  <[length h := c]> (h ++ [d]) = h ++ [c].
Proof.
  rewrite insert_app_r_alt by lia. now rewrite Nat.sub_diag.
Qed.

Lemma heap_alloc_old (h : list dict) (c : dict) (l : nat) (d : dict) :
  h !! l = Some d -> (h ++ [c]) !! l = Some d.
Proof. intros H. now apply lookup_app_l_Some. Qed.

Section Issuer.

Variable jws_sign : dict -> pyval -> dict -> string -> Result string.

(** [create_jwt_token] in closed form: it copies the payload, and either
    the date addition overflows, or the signer is called on
    [issued_claims] and its outcome is the outcome of the call. *)
Lemma create_jwt_token_run (w : World) (data : nat) (d : dict) (secret : pyval) :
  heap w !! data = Some d ->
  create_jwt_token jws_sign data secret w =
    match datetime_add (clock w) (timedelta_minutes ACCESS_TOKEN_EXPIRE_MINUTES) with
    | Err e => (Err e, set_heap w (heap w ++ [d]))
    | Ok _ =>
        let c := issued_claims d (clamped_expiry (clock w)) in
        (jws_sign c secret [("typ", PStr "JWT"); ("alg", PStr ALGORITHM)] ALGORITHM,
         set_heap w (heap w ++ [c]))
    end.
Proof.
  intros Hd.
  unfold create_jwt_token, dict_copy, dict_update_at, jwt_encode, dict_read,
    dict_write, dict_new, utcnow, bind, lift, ret. simpl.
  rewrite Hd. simpl.
  unfold datetime_add.
  destruct ((datetime_min <=? _) && (_ <=? datetime_max)); [|reflexivity].
  simpl. rewrite (heap_alloc_lookup (heap w) d). simpl.
  rewrite heap_alloc_insert, heap_alloc_lookup. simpl.
  rewrite heap_alloc_insert.
  fold (clamped_expiry (clock w)).
  change (fold_left convert_time_claim ["exp"; "iat"; "nbf"]
            (dict_update d [("exp", PDatetime (clamped_expiry (clock w)))]))
    with (issued_claims d (clamped_expiry (clock w))).
  destruct (jws_sign _ _ _ _); reflexivity.
Qed.

(** A dangling reference cannot be copied; nothing happens. *)
Lemma create_jwt_token_dangling (w : World) (data : nat) (secret : pyval) :
  heap w !! data = None ->
  create_jwt_token jws_sign data secret w = (Err SystemError, w).
Proof.
  intros Hd.
  unfold create_jwt_token, dict_copy, dict_read, bind. now rewrite Hd.
Qed.

(** When the token is issued, the signer produced it from the issued
    claims. *)
Lemma create_jwt_token_signed (w w' : World) (data : nat) (d : dict)
    (secret : pyval) (tok : string) :
  heap w !! data = Some d ->
  create_jwt_token jws_sign data secret w = (Ok tok, w') ->
  jws_sign (issued_claims d (clamped_expiry (clock w))) secret
           [("typ", PStr "JWT"); ("alg", PStr ALGORITHM)] ALGORITHM = Ok tok.
Proof.
  intros Hd Hrun. rewrite (create_jwt_token_run w data d secret Hd) in Hrun.
  destruct (datetime_add _ _); [|discriminate].
  simpl in Hrun. now injection Hrun as -> _.
Qed.

(** The token is issued whenever the date addition stays in range and the
    signer accepts the issued claims. *)
Lemma create_jwt_token_returns (w : World) (data : nat) (d : dict)
    (secret : pyval) (tok : string) :
  heap w !! data = Some d ->
  datetime_min <= clock w + timedelta_minutes ACCESS_TOKEN_EXPIRE_MINUTES <= datetime_max ->
  jws_sign (issued_claims d (clamped_expiry (clock w))) secret
           [("typ", PStr "JWT"); ("alg", PStr ALGORITHM)] ALGORITHM = Ok tok ->
  fst (create_jwt_token jws_sign data secret w) = Ok tok.
Proof.
  intros Hd Hrange Hsign. rewrite (create_jwt_token_run w data d secret Hd).
  unfold datetime_add.
  replace ((datetime_min <=? _) && (_ <=? datetime_max)) with true
    by (symmetry; apply andb_true_intro; split; apply Z.leb_le; lia).
  simpl. exact Hsign.
Qed.

End Issuer.

(** ** The reference implementation meets the contract *)

Lemma unjoin_field (f s : string) :
  RefJose.unjoin (RefJose.escape f +:+ String ";"%char s) = f :: RefJose.unjoin s.
Proof.
  induction f as [|c r IH]; [reflexivity|].
  simpl. destruct (RefJose.is_special c) eqn:E.
  - simpl. now rewrite IH.
  - unfold RefJose.is_special in E. apply orb_false_elim in E as [E1 E2].
    simpl. rewrite E1, E2. now rewrite IH.
Qed.

Lemma unjoin_join (l : list string) : RefJose.unjoin (RefJose.join l) = l.
Proof.
  induction l as [|f l IH]; [reflexivity|].
  simpl. rewrite unjoin_field. now rewrite IH.
Qed.

Lemma dec_pos_enc (p : positive) : RefJose.dec_pos (RefJose.enc_pos p) = Some p.
Proof. induction p as [p IH|p IH|]; simpl; try rewrite IH; reflexivity. Qed.

Lemma dec_Z_enc (z : Z) : RefJose.dec_Z (RefJose.enc_Z z) = Some z.
Proof. destruct z; simpl; try rewrite dec_pos_enc; reflexivity. Qed.

Lemma dec_val_enc (v : pyval) (f : string) :
  RefJose.enc_val v = Some f -> RefJose.dec_val f = Some v.
Proof.
  destruct v as [| [] | z | s | | |]; simpl; intros H; try discriminate;
    injection H as <-; try reflexivity.
  simpl. now rewrite dec_Z_enc.
Qed.

Lemma fields_dict_fields (d : dict) (l : list string) :
  RefJose.dict_fields d = Some l -> RefJose.fields_dict l = Some d.
Proof.
  revert l. induction d as [|[k v] d IH]; simpl; intros l H.
  - now injection H as <-.
  - destruct (RefJose.enc_val v) as [f|] eqn:Ev; [|discriminate].
    destruct (RefJose.dict_fields d) as [fs|] eqn:Ed; [|discriminate].
    injection H as <-. simpl.
    rewrite (dec_val_enc v f Ev). now rewrite (IH fs eq_refl).
Qed.

Lemma ref_round_trip (claims : dict) (key : pyval) (headers : dict)
    (algorithm tok : string) :
  RefJose.sign claims key headers algorithm = Ok tok ->
  RefJose.verify tok key = Ok (PDict claims).
Proof.
  unfold RefJose.sign, RefJose.verify.
  destruct (negb (String.eqb algorithm "HS256")); [discriminate|].
  destruct key as [| | | k | | |]; try discriminate.
  destruct (RefJose.dict_fields headers) as [h|]; [|discriminate].
  destruct (RefJose.dict_fields claims) as [p|] eqn:Ep; [|discriminate].
  intros H.
  assert (Htok : tok = RefJose.join [RefJose.join h; RefJose.join p;
            RefJose.mac k (RefJose.join [RefJose.join h; RefJose.join p])])
    by (cbv zeta in H; congruence).
  rewrite Htok. clear H Htok.
  rewrite unjoin_join. rewrite String.eqb_refl. rewrite unjoin_join.
  now rewrite (fields_dict_fields claims p Ep).
Qed.

(** ** Running the Secret Resolver *)

Lemma get_secret_from_kong_run (w : World) (consumer_id : string) :
  get_secret_from_kong consumer_id w =
    match kong w (consumer_url consumer_id) with
    | None => (Err TransportError, after_request w consumer_id)
    | Some r =>
        if negb (status_code r =? 200) then
          (Err (UpstreamError (status_code r)), after_request w consumer_id)
        else
          match json r with
          | None => (Err JSONDecodeError, after_request w consumer_id)
          | Some kong_data =>
              match first_secret kong_data with
              | Err e => (Err e, after_response w consumer_id kong_data)
              | Ok s =>
                  if truthy s
                  then (Ok s, after_secret w consumer_id kong_data s)
                  else (Err NotFoundError, after_response w consumer_id kong_data)
              end
          end
    end.
Proof.
  unfold get_secret_from_kong, bind, print, client_get, response_json, lift,
    raise, ret, consumer_url. cbn -[first_secret truthy].
  destruct (kong w _) as [r|]; [|reflexivity].
  destruct (status_code r =? 200); cbn -[first_secret truthy]; [|reflexivity].
  destruct (json r) as [kong_data|]; cbn -[first_secret truthy]; [|reflexivity].
  destruct (first_secret kong_data) as [s|e]; cbn -[first_secret truthy];
    [|reflexivity].
  destruct (truthy s); reflexivity.
Qed.

(** The first record's secret, for a well-shaped listing. *)
Lemma first_secret_of_listing (body : dict) (record : dict) (rest : list pyval)
    (s : pyval) :
  dict_get body "data" = Some (PList (PDict record :: rest)) ->
  dict_get record "secret" = Some s ->
  first_secret (PDict body) = Ok s.
Proof.
  intros Hdata Hsecret. unfold first_secret. simpl. rewrite Hdata. simpl.
  unfold list_getitem. simpl.
  replace (0 <? Z.pos (Pos.of_succ_nat (length rest))) with true
    by (symmetry; apply Z.ltb_lt; lia).
  simpl. now rewrite Hsecret.
Qed.

(** ** Issued tokens, for any library that meets the contract *)

Section Issued.

Variable jws_sign : dict -> pyval -> dict -> string -> Result string.
Variable jws_verify : string -> pyval -> Result pyval.

(** The contract of the JWS layer: a token the signer produced verifies
    under the same key and carries the claims that were signed. *)
Hypothesis jws_round_trip :
  forall (claims : dict) (key : pyval) (headers : dict) (algorithm tok : string),
    jws_sign claims key headers algorithm = Ok tok ->
    jws_verify tok key = Ok (PDict claims).

Lemma issued_token_decodes (w w' : World) (data : nat) (d : dict)
    (secret : pyval) (tok : string) :
  heap w !! data = Some d ->
  create_jwt_token jws_sign data secret w = (Ok tok, w') ->
  jwt_decode jws_verify tok secret = Ok (issued_claims d (clamped_expiry (clock w))).
Proof.
  intros Hd Hrun.
  pose proof (create_jwt_token_signed jws_sign w w' data d secret tok Hd Hrun) as Hs.
  unfold jwt_decode. now rewrite (jws_round_trip _ _ _ _ _ Hs).
Qed.

(** C1 (amended): for a payload with an [iss] entry and any secret, an
    issued token decodes, under the same secret, to claims with the original
    [iss] and an [exp] that is no later than the issuance time plus the
    validity window or the ceiling, whichever is smaller; and [exp] lies
    strictly after the issuance time exactly when the token was issued
    before the ceiling instant 2038-01-19T03:14:07Z. *)
Theorem token_round_trip_bounds (w w' : World) (data : nat) (d : dict)
    (secret iss : pyval) (tok : string) :
  heap w !! data = Some d ->
  dict_get d "iss" = Some iss ->
  create_jwt_token jws_sign data secret w = (Ok tok, w') ->
  exists (c : dict) (e : Z),
    jwt_decode jws_verify tok secret = Ok c /\
    dict_get c "iss" = Some iss /\
    dict_get c "exp" = Some (PInt e) /\
    e * 1000000 <= Z.min (clock w + timedelta_minutes ACCESS_TOKEN_EXPIRE_MINUTES)
                         (datetime 2038 1 19 3 14 7 0) /\
    (clock w < e * 1000000 <-> clock w < datetime 2038 1 19 3 14 7 0).
Proof.
  intros Hd Hiss Hrun.
  exists (issued_claims d (clamped_expiry (clock w))), (timegm (clamped_expiry (clock w))).
  split; [eapply issued_token_decodes; eauto|].
  split; [rewrite issued_claims_other by discriminate; exact Hiss|].
  split; [apply issued_claims_exp|].
  assert (Hup : timegm (clamped_expiry (clock w)) * 1000000 <= clamped_expiry (clock w))
    by apply timegm_floor.
  split; [exact Hup|].
  split; [|apply clamped_expiry_after_now].
  intros Hlt. pose proof (clamped_expiry_le_ceiling (clock w)). lia.
Qed.

(** C2: the [exp] claim of an issued token is the clamped expiry in whole
    seconds: the ceiling 2038-01-19T03:14:07Z when the issuance time plus
    the validity window exceeds it, and the issuance time plus the window
    otherwise. *)
Theorem create_jwt_token_exp_clamped (w w' : World) (data : nat) (d : dict)
    (secret : pyval) (tok : string) :
  heap w !! data = Some d ->
  create_jwt_token jws_sign data secret w = (Ok tok, w') ->
  exists (c : dict) (expire : Z),
    jwt_decode jws_verify tok secret = Ok c /\
    dict_get c "exp" = Some (PInt (timegm expire)) /\
    (datetime 2038 1 19 3 14 7 0
       < clock w + timedelta_minutes ACCESS_TOKEN_EXPIRE_MINUTES ->
     expire = datetime 2038 1 19 3 14 7 0 /\ timegm expire = 2147483647) /\
    (clock w + timedelta_minutes ACCESS_TOKEN_EXPIRE_MINUTES
       <= datetime 2038 1 19 3 14 7 0 ->
     expire = clock w + timedelta_minutes ACCESS_TOKEN_EXPIRE_MINUTES).
Proof.
  intros Hd Hrun.
  exists (issued_claims d (clamped_expiry (clock w))), (clamped_expiry (clock w)).
  split; [eapply issued_token_decodes; eauto|].
  split; [apply issued_claims_exp|].
  unfold clamped_expiry. split; intros H.
  - rewrite Z.min_r by lia. split; reflexivity.
  - now rewrite Z.min_l by lia.
Qed.

(** C5: whatever the input payload holds, an [exp] entry included, the
    issued token carries exactly one [exp] claim, and its value is at most
    the ceiling 2038-01-19T03:14:07Z. *)
Theorem create_jwt_token_one_exp (w w' : World) (data : nat) (d : dict)
    (secret : pyval) (tok : string) :
  heap w !! data = Some d ->
  NoDup (dict_keys d) ->
  create_jwt_token jws_sign data secret w = (Ok tok, w') ->
  exists (c : dict) (e : Z),
    jwt_decode jws_verify tok secret = Ok c /\
    key_count "exp" c = 1%nat /\
    dict_get c "exp" = Some (PInt e) /\
    e <= timegm (datetime 2038 1 19 3 14 7 0).
Proof.
  intros Hd Hnd Hrun.
  exists (issued_claims d (clamped_expiry (clock w))), (timegm (clamped_expiry (clock w))).
  split; [eapply issued_token_decodes; eauto|].
  split; [now apply issued_claims_one_exp|].
  split; [apply issued_claims_exp|].
  apply timegm_mono, clamped_expiry_le_ceiling.
Qed.

(** [generate_token] after the resolver returned [secret]: it allocates the
    one-entry payload, issues the token for it and wraps it. *)
Lemma generate_token_run (w w1 : World) (data : TokenData.t) (consumer_id : string)
    (secret : pyval) :
  get_secret_from_kong consumer_id w = (Ok secret, w1) ->
  generate_token jws_sign data consumer_id w =
    match create_jwt_token jws_sign (length (heap w1)) secret
            (set_heap w1 (heap w1 ++ [[("iss", PStr (TokenData.iss data))]])) with
    | (Ok tok, w') => (Ok (PDict [("token", PStr tok)]), w')
    | (Err e, w') => (Err e, w')
    end.
Proof.
  intros Hs. unfold generate_token, bind at 1. rewrite Hs.
  unfold bind, dict_new, ret. simpl.
  destruct (create_jwt_token _ _ _ _) as [[tok|e] w']; reflexivity.
Qed.

(** The resolver's outcome on a well-shaped listing with a non-empty first
    secret. *)
Lemma get_secret_from_kong_listing (w : World) (consumer_id : string)
    (resp : Response) (body record : dict) (rest : list pyval) (s : pyval) :
  kong w (consumer_url consumer_id) = Some resp ->
  status_code resp = 200 ->
  json resp = Some (PDict body) ->
  dict_get body "data" = Some (PList (PDict record :: rest)) ->
  dict_get record "secret" = Some s ->
  get_secret_from_kong consumer_id w =
    if truthy s
    then (Ok s, after_secret w consumer_id (PDict body) s)
    else (Err NotFoundError, after_response w consumer_id (PDict body)).
Proof.
  intros Hk Hst Hj Hdata Hsec. rewrite get_secret_from_kong_run.
  rewrite Hk, Hst, Hj. simpl negb. cbv iota.
  now rewrite (first_secret_of_listing body record rest s Hdata Hsec).
Qed.

(** [generate_token] returns the wrapped token whenever Kong lists a
    non-empty first secret, the date addition stays in range and the signer
    accepts the claims. *)
Lemma generate_token_returns (w : World) (consumer_id issuer : string)
    (resp : Response) (body record : dict) (rest : list pyval) (s : pyval)
    (tok : string) :
  kong w (consumer_url consumer_id) = Some resp ->
  status_code resp = 200 ->
  json resp = Some (PDict body) ->
  dict_get body "data" = Some (PList (PDict record :: rest)) ->
  dict_get record "secret" = Some s ->
  truthy s = true ->
  datetime_min <= clock w + timedelta_minutes ACCESS_TOKEN_EXPIRE_MINUTES <= datetime_max ->
  jws_sign (issued_claims [("iss", PStr issuer)] (clamped_expiry (clock w))) s
           [("typ", PStr "JWT"); ("alg", PStr ALGORITHM)] ALGORITHM = Ok tok ->
  fst (generate_token jws_sign (TokenData.mk issuer) consumer_id w)
    = Ok (PDict [("token", PStr tok)]).
Proof.
  intros Hk Hst Hj Hdata Hsec Htruthy Hrange Hsign.
  pose proof (get_secret_from_kong_listing w consumer_id resp body record rest s
                Hk Hst Hj Hdata Hsec) as Hs.
  rewrite Htruthy in Hs.
  rewrite (generate_token_run _ _ _ _ _ Hs).
  pose proof (create_jwt_token_returns jws_sign _ _ _ s tok
                (heap_after_alloc (after_secret w consumer_id (PDict body) s)
                                  [("iss", PStr issuer)])
                Hrange Hsign) as Hc.
  simpl TokenData.iss.
  destruct (create_jwt_token _ _ _ _) as [[tok'|e] w2]; simpl in Hc |- *; congruence.
Qed.

(** C6: the validity window is 2 minutes.  With Kong listing a first
    credential whose secret is "s3cr3t", and an issuance time whose
    2-minute expiry does not pass the ceiling, the token that
    [generate_token] issues for issuer claim "service-a" decodes with
    "s3cr3t" to exactly [iss] = "service-a" and [exp] = issuance time plus
    2 minutes, in whole seconds. *)
Theorem generate_token_two_minutes (w w' : World) (consumer_id : string)
    (resp : Response) (body record : dict) (rest : list pyval) (r : pyval) :
  kong w (consumer_url consumer_id) = Some resp ->
  status_code resp = 200 ->
  json resp = Some (PDict body) ->
  dict_get body "data" = Some (PList (PDict record :: rest)) ->
  dict_get record "secret" = Some (PStr "s3cr3t") ->
  clock w + timedelta_minutes 2 <= datetime 2038 1 19 3 14 7 0 ->
  generate_token jws_sign (TokenData.mk "service-a") consumer_id w = (Ok r, w') ->
  ACCESS_TOKEN_EXPIRE_MINUTES = 2 /\
  exists tok : string,
    r = PDict [("token", PStr tok)] /\
    jwt_decode jws_verify tok (PStr "s3cr3t") =
      Ok [("iss", PStr "service-a");
          ("exp", PInt (timegm (clock w + timedelta_minutes 2)))] /\
    timegm (clock w + timedelta_minutes 2) = timegm (clock w) + 2 * 60.
Proof.
  intros Hk Hst Hj Hdata Hsec Hbelow Hrun.
  split; [reflexivity|].
  pose proof (get_secret_from_kong_listing w consumer_id resp body record rest
                (PStr "s3cr3t") Hk Hst Hj Hdata Hsec) as Hs.
  simpl in Hs.
  rewrite (generate_token_run _ _ _ _ _ Hs) in Hrun.
  destruct (create_jwt_token _ _ _ _) as [[tok|e] w2] eqn:Hc; [|discriminate].
  injection Hrun as <- <-.
  exists tok. split; [reflexivity|]. split.
  - rewrite (issued_token_decodes _ _ _ _ _ _ (heap_after_alloc _ _) Hc).
    simpl clock. unfold clamped_expiry.
    rewrite Z.min_l by exact Hbelow. reflexivity.
  - change (timedelta_minutes 2) with (120 * 1000000).
    rewrite timegm_add_seconds. reflexivity.
Qed.

End Issued.

(** ** The Token Issuer as a function of payload, secret and clock *)

Lemma only_allocates_alloc (w : World) (c : dict) :
  only_allocates w (set_heap w (heap w ++ [c])).
Proof.
  unfold only_allocates. simpl. repeat split; try reflexivity.
  intros l d H. now apply heap_alloc_old.
Qed.

Section Effects.

Variable jws_sign : dict -> pyval -> dict -> string -> Result string.

Lemma create_jwt_token_only_allocates (w : World) (data : nat) (secret : pyval) :
  only_allocates w (snd (create_jwt_token jws_sign data secret w)).
Proof.
  destruct (heap w !! data) as [d|] eqn:Hd.
  - rewrite (create_jwt_token_run jws_sign w data d secret Hd).
    destruct (datetime_add _ _); simpl; apply only_allocates_alloc.
  - rewrite (create_jwt_token_dangling jws_sign w data secret Hd). simpl.
    unfold only_allocates. repeat split; auto.
Qed.

(** C7: [create_jwt_token] is a function of the payload's entries, the
    secret and the clock reading.  Two runs that agree on these, in any two
    worlds, give the same outcome (the same token string when one is
    issued), and neither run changes anything observable: the clock, Kong,
    standard output, the requests sent, the table and every dict object
    that existed are as before. *)
Theorem create_jwt_token_pure (w1 w2 : World) (data1 data2 : nat) (d : dict)
    (secret : pyval) :
  heap w1 !! data1 = Some d ->
  heap w2 !! data2 = Some d ->
  clock w1 = clock w2 ->
  fst (create_jwt_token jws_sign data1 secret w1)
    = fst (create_jwt_token jws_sign data2 secret w2) /\
  only_allocates w1 (snd (create_jwt_token jws_sign data1 secret w1)) /\
  only_allocates w2 (snd (create_jwt_token jws_sign data2 secret w2)).
Proof.
  intros H1 H2 Hclock. split; [|split; apply create_jwt_token_only_allocates].
  rewrite (create_jwt_token_run jws_sign w1 data1 d secret H1).
  rewrite (create_jwt_token_run jws_sign w2 data2 d secret H2).
  rewrite Hclock. destruct (datetime_add _ _); reflexivity.
Qed.

(** C9: [create_jwt_token] never mutates the caller's claims dict: after
    the call, whatever its outcome, the object passed in has the entries it
    had before; [exp] is written to the copy only. *)
Theorem create_jwt_token_keeps_payload (w : World) (data : nat) (secret : pyval) :
  heap (snd (create_jwt_token jws_sign data secret w)) !! data = heap w !! data.
Proof.
  destruct (heap w !! data) as [d|] eqn:Hd.
  - rewrite (create_jwt_token_run jws_sign w data d secret Hd).
    destruct (datetime_add _ _); simpl; now apply heap_alloc_old.
  - now rewrite (create_jwt_token_dangling jws_sign w data secret Hd).
Qed.

End Effects.

(** ** The item table *)

Lemma only_logs_echo (w : World) (log : list (string * pyval)) :
  only_logs w (set_stdout w (stdout w ++ log)).
Proof. unfold only_logs. simpl. repeat split; eauto. Qed.

Lemma only_logs_trans (w1 w2 w3 : World) :
  only_logs w1 w2 -> only_logs w2 w3 -> only_logs w1 w3.
Proof.
  intros (Hc & Hk & Hr & Hh & Hd & l1 & Hs) (Hc' & Hk' & Hr' & Hh' & Hd' & l2 & Hs').
  unfold only_logs. repeat split; try congruence.
  exists (l1 ++ l2). rewrite Hs', Hs. now rewrite app_assoc.
Qed.

Section Table.

Variable engine_echo : sql_op -> gmap Z Row -> list (string * pyval).

Lemma session_get_run (w : World) (item_id : Z) :
  session_get engine_echo item_id w =
    if int64 item_id then
      (Ok (match db w !! item_id with
           | Some r => Some (Item.mk (Some item_id) (row_name r) (row_description r))
           | None => None
           end), logged_by engine_echo w (SqlGet item_id))
    else (Err OverflowError, logged_by engine_echo w (SqlGet item_id)).
Proof.
  unfold session_get, sql_echo, bind, raise. simpl.
  destruct (int64 item_id); reflexivity.
Qed.

Lemma session_get_absent (w : World) (item_id : Z) :
  int64 item_id = true ->
  db w !! item_id = None ->
  session_get engine_echo item_id w = (Ok None, logged_by engine_echo w (SqlGet item_id)).
Proof. intros Hi H. rewrite session_get_run, Hi. now rewrite H. Qed.

Lemma session_get_present (w : World) (item_id : Z) (r : Row) :
  int64 item_id = true ->
  db w !! item_id = Some r ->
  session_get engine_echo item_id w
    = (Ok (Some (Item.mk (Some item_id) (row_name r) (row_description r))),
       logged_by engine_echo w (SqlGet item_id)).
Proof. intros Hi H. rewrite session_get_run, Hi. now rewrite H. Qed.

Lemma session_get_overflow (w : World) (item_id : Z) :
  int64 item_id = false ->
  session_get engine_echo item_id w = (Err OverflowError, logged_by engine_echo w (SqlGet item_id)).
Proof. intros Hi. now rewrite session_get_run, Hi. Qed.

(** The three handlers on an id that is in range and not in the table. *)
Lemma handlers_absent (w : World) (item_id : Z) (item : Item.t) :
  int64 item_id = true ->
  db w !! item_id = None ->
  read_item engine_echo item_id w
    = (Err (HTTPException 404 "Item not found"), logged_by engine_echo w (SqlGet item_id)) /\
  update_item engine_echo item_id item w
    = (Err (HTTPException 404 "Item not found"), logged_by engine_echo w (SqlGet item_id)) /\
  delete_item engine_echo item_id w
    = (Err (HTTPException 404 "Item not found"), logged_by engine_echo w (SqlGet item_id)).
Proof.
  intros Hi H. unfold read_item, update_item, delete_item, bind.
  rewrite (session_get_absent w item_id Hi H). repeat split.
Qed.

(** [update_item] on an id in the table, with a description. *)
Lemma update_item_run (w : World) (item_id : Z) (item : Item.t) (r : Row)
    (d : string) :
  int64 item_id = true ->
  db w !! item_id = Some r ->
  Item.description item = Some d ->
  update_item engine_echo item_id item w
    = (Ok (Item.mk (Some item_id) (Item.name item) (Some d)),
       set_db (logged_by engine_echo (logged_by engine_echo w (SqlGet item_id))
                      (SqlUpdate item_id (Item.name item) (Some d)))
              (<[item_id := mkRow (Item.name item) (Some d)]> (db w))).
Proof.
  intros Hi Hr Hd. unfold update_item, bind.
  rewrite (session_get_present w item_id r Hi Hr).
  unfold session_commit_update, sql_echo, bind. simpl. rewrite Hd. reflexivity.
Qed.

(** [update_item] on an id in the table, without a description. *)
Lemma update_item_null_run (w : World) (item_id : Z) (item : Item.t) (r : Row) :
  int64 item_id = true ->
  db w !! item_id = Some r ->
  Item.description item = None ->
  update_item engine_echo item_id item w
    = (Err IntegrityError,
       logged_by engine_echo (logged_by engine_echo w (SqlGet item_id)) (SqlUpdate item_id (Item.name item) None)).
Proof.
  intros Hi Hr Hd. unfold update_item, bind.
  rewrite (session_get_present w item_id r Hi Hr).
  unfold session_commit_update, sql_echo, bind, raise. simpl. rewrite Hd. reflexivity.
Qed.

(** C8 (amended): for an [item_id] within the signed 64-bit range that is
    not in the table, [read_item], [update_item] and [delete_item] each fail
    with a 404 HTTPException, and the table is left as it was; so are the
    dict objects, the requests and the clock (the engine's echo is all that
    is written). *)
Theorem missing_item_not_found (w : World) (item_id : Z) (item : Item.t) :
  int64 item_id = true ->
  db w !! item_id = None ->
  (fst (read_item engine_echo item_id w) = Err (HTTPException 404 "Item not found") /\
   only_logs w (snd (read_item engine_echo item_id w))) /\
  (fst (update_item engine_echo item_id item w)
     = Err (HTTPException 404 "Item not found") /\
   only_logs w (snd (update_item engine_echo item_id item w))) /\
  (fst (delete_item engine_echo item_id w) = Err (HTTPException 404 "Item not found") /\
   only_logs w (snd (delete_item engine_echo item_id w))).
Proof.
  intros Hi H.
  destruct (handlers_absent w item_id item Hi H) as (-> & -> & ->).
  simpl. repeat split; apply only_logs_echo.
Qed.

(** C10 (amended): for an [item_id] in the table and a supplied item that
    has a description, [update_item] returns the updated record, whose
    [name] and [description] are the supplied ones and whose [id] is the one
    the record had; the row read back is that record, every other row is
    unchanged, and so are the dict objects and the requests. *)
Theorem update_item_overwrites_name_description (w : World) (item_id : Z)
    (item : Item.t) (r : Row) (d : string) :
  int64 item_id = true ->
  db w !! item_id = Some r ->
  Item.description item = Some d ->
  exists (existing updated : Item.t) (w' : World),
    fst (read_item engine_echo item_id w) = Ok existing /\
    update_item engine_echo item_id item w = (Ok updated, w') /\
    Item.id updated = Item.id existing /\
    Item.name updated = Item.name item /\
    Item.description updated = Item.description item /\
    fst (read_item engine_echo item_id w') = Ok updated /\
    (forall j : Z, j <> item_id -> db w' !! j = db w !! j) /\
    heap w' = heap w /\ requests w' = requests w.
Proof.
  intros Hi H Hd.
  eexists (Item.mk (Some item_id) (row_name r) (row_description r)), _, _.
  split; [unfold read_item, bind; now rewrite (session_get_present w item_id r Hi H)|].
  split; [apply (update_item_run w item_id item r d Hi H Hd)|].
  do 2 (split; [reflexivity|]). split; [now rewrite Hd|].
  split.
  - unfold read_item, bind. rewrite session_get_run, Hi. simpl.
    now rewrite lookup_insert_eq.
  - split; [intros j Hj; simpl; now rewrite lookup_insert_ne|]. split; reflexivity.
Qed.

End Table.

(** ** The Secret Resolver *)

(** The subscripts can only fail the way Python subscripts fail. *)
Lemma list_getitem_error {A : Type} (l : list A) (i : Z) (e : exn) :
  list_getitem l i = Err e -> e = IndexError.
Proof.
  unfold list_getitem.
  destruct ((0 <=? _) && (_ <? _)); [destruct (l !! _)|]; congruence.
Qed.

Lemma getitem_str_error (v : pyval) (k : string) (e : exn) :
  getitem_str v k = Err e -> e = KeyError \/ e = TypeError.
Proof.
  destruct v; simpl; try (intros [= <-]; auto).
  destruct (dict_get d k); intros [= <-]; auto.
Qed.

Lemma getitem_int_error (v : pyval) (i : Z) (e : exn) :
  getitem_int v i = Err e -> e = IndexError \/ e = KeyError \/ e = TypeError.
Proof.
  destruct v; simpl; try (intros [= <-]; auto).
  - destruct (list_getitem (list_ascii_of_string s) i) eqn:E; [discriminate|].
    intros [= <-]. left. eapply list_getitem_error; eauto.
  - intros H. left. eapply list_getitem_error; eauto.
Qed.

Lemma first_secret_error (kong_data : pyval) (e : exn) :
  first_secret kong_data = Err e ->
  e = IndexError \/ e = KeyError \/ e = TypeError.
Proof.
  unfold first_secret.
  destruct (getitem_str kong_data "data") as [data|e1] eqn:E1.
  - destruct (getitem_int data 0) as [first|e2] eqn:E2.
    + intros H. apply getitem_str_error in H. tauto.
    + intros [= <-]. now apply getitem_int_error in E2.
  - intros [= <-]. apply getitem_str_error in E1. tauto.
Qed.

(** C3 (amended): when Kong answers, the resolver fails with UpstreamError
    carrying Kong's status code if and only if that status is not 200; and
    when the status is 200 and the body lists credential records, the first
    of which has a secret field, the resolver goes on to that field: it
    returns it when it is non-empty and fails with NotFoundError when it is
    empty. *)
Theorem get_secret_from_kong_status (w : World) (consumer_id : string)
    (resp : Response) :
  kong w (consumer_url consumer_id) = Some resp ->
  (fst (get_secret_from_kong consumer_id w) = Err (UpstreamError (status_code resp))
     <-> status_code resp <> 200) /\
  (status_code resp = 200 ->
   forall (body record : dict) (rest : list pyval) (s : pyval),
     json resp = Some (PDict body) ->
     dict_get body "data" = Some (PList (PDict record :: rest)) ->
     dict_get record "secret" = Some s ->
     fst (get_secret_from_kong consumer_id w)
       = if truthy s then Ok s else Err NotFoundError).
Proof.
  intros Hk. split.
  - rewrite get_secret_from_kong_run, Hk.
    destruct (status_code resp =? 200) eqn:Est; simpl.
    + apply Z.eqb_eq in Est. split; [|congruence].
      intros H. exfalso.
      destruct (json resp) as [kong_data|]; simpl in H; [|discriminate].
      destruct (first_secret kong_data) as [s|e] eqn:Es.
      * destruct (truthy s); simpl in H; [discriminate|].
        unfold NotFoundError, UpstreamError in H. rewrite Est in H. discriminate.
      * simpl in H. injection H as ->.
        apply first_secret_error in Es. unfold UpstreamError in Es.
        destruct Es as [|[|]]; discriminate.
    + apply Z.eqb_neq in Est. split; [intros _; exact Est | reflexivity].
  - intros Hst body record rest s Hj Hdata Hsec.
    rewrite (get_secret_from_kong_listing w consumer_id resp body record rest s
               Hk Hst Hj Hdata Hsec).
    destruct (truthy s); reflexivity.
Qed.

(** The part of the NotFoundError rule that the resolver implements: a
    first record whose secret field is there but empty. *)
Lemma get_secret_from_kong_empty_secret (w : World) (consumer_id : string)
    (resp : Response) (body record : dict) (rest : list pyval) (s : pyval) :
  kong w (consumer_url consumer_id) = Some resp ->
  status_code resp = 200 ->
  json resp = Some (PDict body) ->
  dict_get body "data" = Some (PList (PDict record :: rest)) ->
  dict_get record "secret" = Some s ->
  truthy s = false ->
  fst (get_secret_from_kong consumer_id w) = Err NotFoundError.
Proof.
  intros Hk Hst Hj Hdata Hsec Hs.
  rewrite (get_secret_from_kong_listing w consumer_id resp body record rest s
             Hk Hst Hj Hdata Hsec).
  now rewrite Hs.
Qed.

(** An empty credential list: the subscript [[0]] raises IndexError before
    the emptiness test is reached. *)
Lemma get_secret_from_kong_no_records (w : World) (consumer_id : string)
    (resp : Response) (body : dict) :
  kong w (consumer_url consumer_id) = Some resp ->
  status_code resp = 200 ->
  json resp = Some (PDict body) ->
  dict_get body "data" = Some (PList []) ->
  fst (get_secret_from_kong consumer_id w) = Err IndexError.
Proof.
  intros Hk Hst Hj Hdata. rewrite get_secret_from_kong_run, Hk, Hst, Hj.
  simpl negb. cbv iota. unfold first_secret. simpl. now rewrite Hdata.
Qed.

(** A first record without a secret field: the subscript raises KeyError. *)
Lemma get_secret_from_kong_no_secret_field (w : World) (consumer_id : string)
    (resp : Response) (body record : dict) (rest : list pyval) :
  kong w (consumer_url consumer_id) = Some resp ->
  status_code resp = 200 ->
  json resp = Some (PDict body) ->
  dict_get body "data" = Some (PList (PDict record :: rest)) ->
  dict_get record "secret" = None ->
  fst (get_secret_from_kong consumer_id w) = Err KeyError.
Proof.
  intros Hk Hst Hj Hdata Hsec. rewrite get_secret_from_kong_run, Hk, Hst, Hj.
  simpl negb. cbv iota. unfold first_secret. simpl. rewrite Hdata. simpl.
  unfold list_getitem. simpl.
  replace (0 <? Z.pos (Pos.of_succ_nat (length rest))) with true
    by (symmetry; apply Z.ltb_lt; lia).
  simpl. now rewrite Hsec.
Qed.

(** C4: Kong answers 200 for consumer "ghost" with an empty credential
    list.  The resolver does not fail with NotFoundError (404): it raises
    IndexError. *)
Theorem get_secret_from_kong_empty_list :
  kong ghost_world (consumer_url "ghost") = Some (credentials 200 []) /\
  fst (get_secret_from_kong "ghost" ghost_world) = Err IndexError /\
  fst (get_secret_from_kong "ghost" ghost_world) <> Err NotFoundError.
Proof.
  split; [reflexivity|]. split; [reflexivity|]. discriminate.
Qed.

(** * The scenario, run with the reference implementation *)

Lemma token_round_trip_bounds_witness :
  heap (scenario 1700000000123456) !! 0%nat = Some scenario_payload /\
  dict_get scenario_payload "iss" = Some (PStr "service-a") /\
  exists (tok : string) (w' : World),
    create_jwt_token RefJose.sign 0%nat (PStr "s3cr3t") (scenario 1700000000123456)
      = (Ok tok, w') /\
    exists (c : dict) (e : Z),
      jwt_decode RefJose.verify tok (PStr "s3cr3t") = Ok c /\
      dict_get c "iss" = Some (PStr "service-a") /\
      dict_get c "exp" = Some (PInt e) /\
      e * 1000000 <= Z.min (clock (scenario 1700000000123456)
                            + timedelta_minutes ACCESS_TOKEN_EXPIRE_MINUTES)
                           (datetime 2038 1 19 3 14 7 0) /\
      (clock (scenario 1700000000123456) < e * 1000000
         <-> clock (scenario 1700000000123456) < datetime 2038 1 19 3 14 7 0).
Proof.
  split; [reflexivity|]. split; [reflexivity|].
  eexists. eexists. split; [vm_compute; reflexivity|].
  eapply (token_round_trip_bounds RefJose.sign RefJose.verify ref_round_trip
            (scenario 1700000000123456) _ 0%nat scenario_payload);
    [reflexivity | reflexivity | vm_compute; reflexivity].
Defined.

(** C1, as stated, at the ceiling instant: the token issued at
    2038-01-19T03:14:07Z decodes to [exp] = 2147483647, which is the
    issuance time itself and not strictly after it. *)
Lemma token_issued_at_ceiling_not_after_now :
  heap (scenario (datetime 2038 1 19 3 14 7 0)) !! 0%nat = Some scenario_payload /\
  dict_get scenario_payload "iss" = Some (PStr "service-a") /\
  exists (tok : string) (w' : World),
    create_jwt_token RefJose.sign 0%nat (PStr "s3cr3t")
                     (scenario (datetime 2038 1 19 3 14 7 0)) = (Ok tok, w') /\
    jwt_decode RefJose.verify tok (PStr "s3cr3t")
      = Ok [("iss", PStr "service-a"); ("exp", PInt 2147483647)] /\
    ~ (clock (scenario (datetime 2038 1 19 3 14 7 0)) < 2147483647 * 1000000).
Proof.
  split; [reflexivity|]. split; [reflexivity|].
  eexists. eexists. split; [vm_compute; reflexivity|]. split; [reflexivity|].
  simpl. rewrite ceiling_seconds. lia.
Qed.

Lemma create_jwt_token_exp_clamped_witness :
  heap (scenario (datetime 2038 1 19 3 13 0 0)) !! 0%nat = Some scenario_payload /\
  exists (tok : string) (w' : World),
    create_jwt_token RefJose.sign 0%nat (PStr "s3cr3t")
                     (scenario (datetime 2038 1 19 3 13 0 0)) = (Ok tok, w') /\
    exists (c : dict) (expire : Z),
      jwt_decode RefJose.verify tok (PStr "s3cr3t") = Ok c /\
      dict_get c "exp" = Some (PInt (timegm expire)) /\
      (datetime 2038 1 19 3 14 7 0
         < clock (scenario (datetime 2038 1 19 3 13 0 0))
           + timedelta_minutes ACCESS_TOKEN_EXPIRE_MINUTES ->
       expire = datetime 2038 1 19 3 14 7 0 /\ timegm expire = 2147483647) /\
      (clock (scenario (datetime 2038 1 19 3 13 0 0))
         + timedelta_minutes ACCESS_TOKEN_EXPIRE_MINUTES
         <= datetime 2038 1 19 3 14 7 0 ->
       expire = clock (scenario (datetime 2038 1 19 3 13 0 0))
                + timedelta_minutes ACCESS_TOKEN_EXPIRE_MINUTES).
Proof.
  split; [reflexivity|].
  eexists. eexists. split; [vm_compute; reflexivity|].
  eapply (create_jwt_token_exp_clamped RefJose.sign RefJose.verify ref_round_trip
            (scenario (datetime 2038 1 19 3 13 0 0)) _ 0%nat scenario_payload);
    [reflexivity | vm_compute; reflexivity].
Defined.

Lemma create_jwt_token_one_exp_witness :
  heap scenario_with_exp !! 0%nat = Some payload_with_exp /\
  NoDup (dict_keys payload_with_exp) /\
  exists (tok : string) (w' : World),
    create_jwt_token RefJose.sign 0%nat (PStr "s3cr3t") scenario_with_exp
      = (Ok tok, w') /\
    exists (c : dict) (e : Z),
      jwt_decode RefJose.verify tok (PStr "s3cr3t") = Ok c /\
      key_count "exp" c = 1%nat /\
      dict_get c "exp" = Some (PInt e) /\
      e <= timegm (datetime 2038 1 19 3 14 7 0).
Proof.
  assert (Hnd : NoDup (dict_keys payload_with_exp)).
  { simpl. apply NoDup_cons. split; [|apply NoDup_singleton].
    intros H. apply list_elem_of_singleton in H. discriminate. }
  split; [reflexivity|]. split; [exact Hnd|].
  eexists. eexists. split; [vm_compute; reflexivity|].
  eapply (create_jwt_token_one_exp RefJose.sign RefJose.verify ref_round_trip
            scenario_with_exp _ 0%nat payload_with_exp);
    [reflexivity | exact Hnd | vm_compute; reflexivity].
Defined.

Lemma generate_token_two_minutes_witness :
  kong (scenario 1700000000123456) (consumer_url "consumer-1")
    = Some (credentials 200 [PDict [("secret", PStr "s3cr3t")]]) /\
  clock (scenario 1700000000123456) + timedelta_minutes 2
    <= datetime 2038 1 19 3 14 7 0 /\
  exists (r : pyval) (w' : World),
    generate_token RefJose.sign (TokenData.mk "service-a") "consumer-1"
                   (scenario 1700000000123456) = (Ok r, w') /\
    ACCESS_TOKEN_EXPIRE_MINUTES = 2 /\
    exists tok : string,
      r = PDict [("token", PStr tok)] /\
      jwt_decode RefJose.verify tok (PStr "s3cr3t") =
        Ok [("iss", PStr "service-a");
            ("exp", PInt (timegm (clock (scenario 1700000000123456)
                                  + timedelta_minutes 2)))] /\
      timegm (clock (scenario 1700000000123456) + timedelta_minutes 2)
        = timegm (clock (scenario 1700000000123456)) + 2 * 60.
Proof.
  split; [reflexivity|]. split; [vm_compute; discriminate|].
  eexists. eexists. split; [vm_compute; reflexivity|].
  eapply (generate_token_two_minutes RefJose.sign RefJose.verify ref_round_trip
            (scenario 1700000000123456) _ "consumer-1"
            (credentials 200 [PDict [("secret", PStr "s3cr3t")]])
            [("data", PList [PDict [("secret", PStr "s3cr3t")]]); ("next", PNone)]
            [("secret", PStr "s3cr3t")] []);
    [reflexivity | reflexivity | reflexivity | reflexivity | reflexivity
    | vm_compute; discriminate | vm_compute; reflexivity].
Defined.

Lemma create_jwt_token_pure_witness :
  heap (scenario 1700000000123456) !! 0%nat = Some scenario_payload /\
  heap (world_at 1700000000123456 (scenario_kong 500)
                 [payload_with_exp; scenario_payload] ∅) !! 1%nat
    = Some scenario_payload /\
  fst (create_jwt_token RefJose.sign 0%nat (PStr "s3cr3t") (scenario 1700000000123456))
    = fst (create_jwt_token RefJose.sign 1%nat (PStr "s3cr3t")
             (world_at 1700000000123456 (scenario_kong 500)
                       [payload_with_exp; scenario_payload] ∅)) /\
  only_allocates (scenario 1700000000123456)
    (snd (create_jwt_token RefJose.sign 0%nat (PStr "s3cr3t")
            (scenario 1700000000123456))) /\
  only_allocates (world_at 1700000000123456 (scenario_kong 500)
                           [payload_with_exp; scenario_payload] ∅)
    (snd (create_jwt_token RefJose.sign 1%nat (PStr "s3cr3t")
            (world_at 1700000000123456 (scenario_kong 500)
                      [payload_with_exp; scenario_payload] ∅))).
Proof.
  split; [reflexivity|]. split; [reflexivity|].
  apply (create_jwt_token_pure RefJose.sign (scenario 1700000000123456)
           (world_at 1700000000123456 (scenario_kong 500)
                     [payload_with_exp; scenario_payload] ∅)
           0%nat 1%nat scenario_payload (PStr "s3cr3t"));
    reflexivity.
Defined.

Lemma missing_item_not_found_witness :
  int64 2 = true /\
  db (scenario 0) !! 2 = None /\
  (fst (read_item RefDb.echo 2 (scenario 0)) = Err (HTTPException 404 "Item not found") /\
   only_logs (scenario 0) (snd (read_item RefDb.echo 2 (scenario 0)))) /\
  (fst (update_item RefDb.echo 2 bread (scenario 0))
     = Err (HTTPException 404 "Item not found") /\
   only_logs (scenario 0) (snd (update_item RefDb.echo 2 bread (scenario 0)))) /\
  (fst (delete_item RefDb.echo 2 (scenario 0)) = Err (HTTPException 404 "Item not found") /\
   only_logs (scenario 0) (snd (delete_item RefDb.echo 2 (scenario 0)))).
Proof.
  split; [reflexivity|]. split; [reflexivity|].
  apply (missing_item_not_found RefDb.echo (scenario 0) 2 bread); reflexivity.
Defined.

(** C8, as stated, at item_id = 2^63: the id is not in the table, and the
    three handlers fail with OverflowError, not with a 404. *)
Lemma missing_item_beyond_int64 :
  db (scenario 0) !! (2 ^ 63) = None /\
  fst (read_item RefDb.echo (2 ^ 63) (scenario 0)) = Err OverflowError /\
  fst (update_item RefDb.echo (2 ^ 63) bread (scenario 0)) = Err OverflowError /\
  fst (delete_item RefDb.echo (2 ^ 63) (scenario 0)) = Err OverflowError /\
  fst (read_item RefDb.echo (2 ^ 63) (scenario 0))
    <> Err (HTTPException 404 "Item not found").
Proof.
  split; [reflexivity|]. do 3 (split; [reflexivity|]). discriminate.
Qed.

Lemma update_item_overwrites_name_description_witness :
  int64 1 = true /\
  db (scenario 0) !! 1 = Some (mkRow "milk" (Some "two litres")) /\
  exists (existing updated : Item.t) (w' : World),
    fst (read_item RefDb.echo 1 (scenario 0)) = Ok existing /\
    update_item RefDb.echo 1 (Item.mk (Some 7) "bread" (Some "sliced")) (scenario 0)
      = (Ok updated, w') /\
    Item.id updated = Item.id existing /\
    Item.name updated = "bread" /\
    Item.description updated = Some "sliced" /\
    fst (read_item RefDb.echo 1 w') = Ok updated /\
    (forall j : Z, j <> 1 -> db w' !! j = db (scenario 0) !! j) /\
    heap w' = heap (scenario 0) /\ requests w' = requests (scenario 0).
Proof.
  split; [reflexivity|]. split; [reflexivity|].
  apply (update_item_overwrites_name_description RefDb.echo (scenario 0) 1
           (Item.mk (Some 7) "bread" (Some "sliced"))
           (mkRow "milk" (Some "two litres")) "sliced"); reflexivity.
Defined.

(** C10, as stated, for a supplied item without a description: the id is
    in the table, and [update_item] fails with IntegrityError; no record is
    returned and the row keeps its name and description. *)
Lemma update_item_null_description :
  db (scenario 0) !! 1 = Some (mkRow "milk" (Some "two litres")) /\
  fst (update_item RefDb.echo 1 (Item.mk (Some 7) "bread" None) (scenario 0))
    = Err IntegrityError /\
  db (snd (update_item RefDb.echo 1 (Item.mk (Some 7) "bread" None) (scenario 0))) !! 1
    = Some (mkRow "milk" (Some "two litres")).
Proof.
  split; [reflexivity|]. split; reflexivity.
Qed.

Lemma get_secret_from_kong_status_witness :
  kong (scenario 0) (consumer_url "consumer-1")
    = Some (credentials 200 [PDict [("secret", PStr "s3cr3t")]]) /\
  (fst (get_secret_from_kong "consumer-1" (scenario 0)) = Err (UpstreamError 200)
     <-> 200 <> 200) /\
  (200 = 200 ->
   forall (body record : dict) (rest : list pyval) (s : pyval),
     Some (PDict [("data", PList [PDict [("secret", PStr "s3cr3t")]]); ("next", PNone)])
       = Some (PDict body) ->
     dict_get body "data" = Some (PList (PDict record :: rest)) ->
     dict_get record "secret" = Some s ->
     fst (get_secret_from_kong "consumer-1" (scenario 0))
       = if truthy s then Ok s else Err NotFoundError).
Proof.
  split; [reflexivity|].
  apply (get_secret_from_kong_status (scenario 0) "consumer-1"
           (credentials 200 [PDict [("secret", PStr "s3cr3t")]])).
  reflexivity.
Defined.

(** C3, as stated, at status 201: Kong answers with a success status (2xx)
    and a list of credential records, and the resolver fails with
    UpstreamError carrying 201 instead of selecting the secret. *)
Lemma get_secret_from_kong_rejects_201 :
  kong (world_at 0 (scenario_kong 201) [] ∅) (consumer_url "consumer-1")
    = Some (credentials 201 [PDict [("secret", PStr "s3cr3t")]]) /\
  http_success 201 = true /\
  fst (get_secret_from_kong "consumer-1" (world_at 0 (scenario_kong 201) [] ∅))
    = Err (UpstreamError 201) /\
  ~ (fst (get_secret_from_kong "consumer-1" (world_at 0 (scenario_kong 201) [] ∅))
       = Err (UpstreamError 201) <-> http_success 201 = false).
Proof.
  split; [reflexivity|]. split; [reflexivity|]. split; [reflexivity|].
  intros [H _]. specialize (H eq_refl). discriminate.
Qed.

(** * Further properties of the Secret Resolver *)

Lemma get_secret_from_kong_frame (w : World) (consumer_id : string) :
  requests (snd (get_secret_from_kong consumer_id w))
    = requests w ++ [consumer_url consumer_id] /\
  kong (snd (get_secret_from_kong consumer_id w)) = kong w /\
  heap (snd (get_secret_from_kong consumer_id w)) = heap w /\
  db (snd (get_secret_from_kong consumer_id w)) = db w /\
  clock (snd (get_secret_from_kong consumer_id w)) = clock w.
Proof.
  rewrite get_secret_from_kong_run.
  destruct (kong w _) as [r|]; [|repeat split].
  destruct (negb _); [repeat split|].
  destruct (json r) as [kong_data|]; [|repeat split].
  destruct (first_secret kong_data) as [s|e]; [|repeat split].
  destruct (truthy s); repeat split.
Qed.

Lemma get_secret_from_kong_ok_inv (w w' : World) (consumer_id : string) (s : pyval) :
  get_secret_from_kong consumer_id w = (Ok s, w') ->
  exists (resp : Response) (kong_data : pyval),
    kong w (consumer_url consumer_id) = Some resp /\
    status_code resp = 200 /\
    json resp = Some kong_data /\
    first_secret kong_data = Ok s /\
    truthy s = true /\
    w' = after_secret w consumer_id kong_data s.
Proof.
  rewrite get_secret_from_kong_run.
  destruct (kong w _) as [r|]; [|discriminate].
  destruct (status_code r =? 200) eqn:Est; simpl; [|discriminate].
  apply Z.eqb_eq in Est.
  destruct (json r) as [kong_data|] eqn:Ej; [|discriminate].
  destruct (first_secret kong_data) as [s0|e] eqn:Es; [|discriminate].
  destruct (truthy s0) eqn:Et; [|discriminate].
  intros [= <- <-]. exists r, kong_data. repeat split; auto.
Qed.

(** X1: every call of the resolver, whatever its outcome, calls
    [client.get] exactly once, with the string made of
    "http://kong:8001/consumers/", the consumer id as it was given and
    "/jwt"; it logs the consumer first, and leaves the dict objects, the
    table, the clock and Kong alone. *)
Theorem get_secret_from_kong_one_request (w : World) (consumer_id : string) :
  requests (snd (get_secret_from_kong consumer_id w))
    = requests w ++ ["http://kong:8001/consumers/" +:+ consumer_id +:+ "/jwt"] /\
  (exists more : list (string * pyval),
     stdout (snd (get_secret_from_kong consumer_id w))
       = stdout w ++ ("consumer_id: ", PStr consumer_id) :: more) /\
  heap (snd (get_secret_from_kong consumer_id w)) = heap w /\
  db (snd (get_secret_from_kong consumer_id w)) = db w /\
  clock (snd (get_secret_from_kong consumer_id w)) = clock w /\
  kong (snd (get_secret_from_kong consumer_id w)) = kong w.
Proof.
  destruct (get_secret_from_kong_frame w consumer_id) as (Hr & Hk & Hh & Hd & Hc).
  split; [exact Hr|]. split; [|auto].
  rewrite get_secret_from_kong_run.
  destruct (kong w _) as [r|]; [|exists []; reflexivity].
  destruct (negb _); [exists []; reflexivity|].
  destruct (json r) as [kong_data|]; [|exists []; reflexivity].
  destruct (first_secret kong_data) as [s|e];
    [|exists [("Kong Data: ", kong_data)]; simpl; now rewrite <- app_assoc].
  destruct (truthy s).
  - exists [("Kong Data: ", kong_data); ("Secret: ", s)]. simpl.
    now rewrite <- !app_assoc.
  - exists [("Kong Data: ", kong_data)]. simpl. now rewrite <- app_assoc.
Qed.

(** X2: a successful call writes the secret it returns to standard output:
    the log gains the consumer, Kong's whole answer and the secret, in that
    order. *)
Theorem get_secret_from_kong_logs_secret (w w' : World) (consumer_id : string)
    (s : pyval) :
  get_secret_from_kong consumer_id w = (Ok s, w') ->
  exists kong_data : pyval,
    (exists resp : Response,
       kong w (consumer_url consumer_id) = Some resp /\ json resp = Some kong_data) /\
    stdout w' = stdout w ++ [("consumer_id: ", PStr consumer_id);
                             ("Kong Data: ", kong_data);
                             ("Secret: ", s)].
Proof.
  intros H. apply get_secret_from_kong_ok_inv in H
    as (resp & kong_data & Hk & _ & Hj & _ & _ & ->).
  exists kong_data. split; [eauto|]. simpl. now rewrite <- !app_assoc.
Qed.

(** X3: whatever the resolver returns is the [secret] entry of the first
    record of a status-200 answer, and it is never empty (never a value
    Python treats as false). *)
Theorem get_secret_from_kong_returns_first_secret (w w' : World)
    (consumer_id : string) (s : pyval) :
  get_secret_from_kong consumer_id w = (Ok s, w') ->
  exists (resp : Response) (kong_data : pyval),
    kong w (consumer_url consumer_id) = Some resp /\
    status_code resp = 200 /\
    json resp = Some kong_data /\
    first_secret kong_data = Ok s /\
    truthy s = true /\ s ∉ falsy_values.
Proof.
  intros H. apply get_secret_from_kong_ok_inv in H
    as (resp & kong_data & Hk & Hst & Hj & Hs & Ht & _).
  exists resp, kong_data. repeat split; auto.
  unfold falsy_values. rewrite !elem_of_cons, elem_of_nil.
  intros [?|[?|[?|[?|[?|[?|[]]]]]]]; subst s; discriminate.
Qed.


Lemma truthy_false_iff (v : pyval) : truthy v = false <-> v ∈ falsy_values.
Proof.
  unfold falsy_values. rewrite !elem_of_cons, elem_of_nil. split.
  - destruct v as [|b|z|s|l|d|t]; simpl; intros H.
    + auto.
    + subst b. auto.
    + apply negb_false_iff, Z.eqb_eq in H. subst z. auto.
    + apply negb_false_iff, String.eqb_eq in H. subst s. auto 6.
    + destruct l; [auto 7|discriminate].
    + destruct d; [auto 8|discriminate].
    + discriminate.
  - intros [?|[?|[?|[?|[?|[?|[]]]]]]]; subst v; reflexivity.
Qed.

(** X5: for a 200 answer whose first record has a secret entry, the
    resolver fails with NotFoundError exactly when that entry is a value
    Python treats as false: null, false, 0, the empty string, an empty list
    or an empty object. *)
Theorem get_secret_from_kong_not_found_iff (w : World) (consumer_id : string)
    (resp : Response) (body record : dict) (rest : list pyval) (s : pyval) :
  kong w (consumer_url consumer_id) = Some resp ->
  status_code resp = 200 ->
  json resp = Some (PDict body) ->
  dict_get body "data" = Some (PList (PDict record :: rest)) ->
  dict_get record "secret" = Some s ->
  (fst (get_secret_from_kong consumer_id w) = Err NotFoundError <-> s ∈ falsy_values).
Proof.
  intros Hk Hst Hj Hdata Hsec.
  rewrite (get_secret_from_kong_listing w consumer_id resp body record rest s
             Hk Hst Hj Hdata Hsec).
  rewrite <- truthy_false_iff.
  destruct (truthy s); simpl; split; intros H; try discriminate; reflexivity.
Qed.

(** X6: nothing is cached.  A second call for the same consumer asks Kong
    again and has the outcome of the first. *)
Theorem get_secret_from_kong_no_cache (w : World) (consumer_id : string) :
  fst (get_secret_from_kong consumer_id (snd (get_secret_from_kong consumer_id w)))
    = fst (get_secret_from_kong consumer_id w) /\
  requests (snd (get_secret_from_kong consumer_id
                   (snd (get_secret_from_kong consumer_id w))))
    = requests w ++ [consumer_url consumer_id; consumer_url consumer_id].
Proof.
  destruct (get_secret_from_kong_frame w consumer_id) as (Hr & Hk & _).
  destruct (get_secret_from_kong_frame (snd (get_secret_from_kong consumer_id w))
              consumer_id) as (Hr2 & _).
  split.
  - rewrite (get_secret_from_kong_run (snd (get_secret_from_kong consumer_id w))).
    rewrite Hk. rewrite (get_secret_from_kong_run w).
    destruct (kong w _) as [r|]; [|reflexivity].
    destruct (negb _); [reflexivity|].
    destruct (json r) as [kong_data|]; [|reflexivity].
    destruct (first_secret kong_data) as [s|e]; [|reflexivity].
    destruct (truthy s); reflexivity.
  - rewrite Hr2, Hr. now rewrite <- app_assoc.
Qed.

(** * Further properties of the Token Issuer *)

Lemma dict_set_keys_absent (d : dict) (k : string) (v : pyval) :
  dict_get d k = None -> dict_keys (dict_set d k v) = dict_keys d ++ [k].
Proof.
  induction d as [|[k' v'] d IH]; simpl; [reflexivity|].
  destruct (String.eqb k' k); [discriminate|].
  intros H. simpl. f_equal. now apply IH.
Qed.

Lemma issued_claims_keys (d : dict) (expire : Z) :
  dict_keys (issued_claims d expire)
    = match dict_get d "exp" with
      | Some _ => dict_keys d
      | None => dict_keys d ++ ["exp"]
      end.
Proof.
  unfold issued_claims, dict_update. simpl.
  rewrite !convert_time_claim_keys.
  destruct (dict_get d "exp") as [x|] eqn:E.
  - eapply dict_set_keys_present; eauto.
  - now apply dict_set_keys_absent.
Qed.

Lemma timegm_clamped_mono (n1 n2 : Z) :
  n1 <= n2 -> timegm (clamped_expiry n1) <= timegm (clamped_expiry n2).
Proof.
  intros H. apply timegm_mono. unfold clamped_expiry.
  apply Z.min_le_compat_r. lia.
Qed.

Section IssuerMore.

Variable jws_sign : dict -> pyval -> dict -> string -> Result string.
Variable jws_verify : string -> pyval -> Result pyval.

Hypothesis jws_round_trip :
  forall (claims : dict) (key : pyval) (headers : dict) (algorithm tok : string),
    jws_sign claims key headers algorithm = Ok tok ->
    jws_verify tok key = Ok (PDict claims).

(** X7: the issued token carries the caller's claims unchanged, in the
    caller's order: every entry other than the time claims [exp], [iat] and
    [nbf] decodes to the value it had in the payload, and the keys are the
    payload's keys, with [exp] added at the end when the payload had
    none. *)
Theorem create_jwt_token_keeps_claims (w w' : World) (data : nat) (d : dict)
    (secret : pyval) (tok : string) :
  heap w !! data = Some d ->
  create_jwt_token jws_sign data secret w = (Ok tok, w') ->
  exists c : dict,
    jwt_decode jws_verify tok secret = Ok c /\
    (forall k : string, k <> "exp" -> k <> "iat" -> k <> "nbf" ->
       dict_get c k = dict_get d k) /\
    dict_keys c = match dict_get d "exp" with
                  | Some _ => dict_keys d
                  | None => dict_keys d ++ ["exp"]
                  end.
Proof.
  intros Hd Hrun. exists (issued_claims d (clamped_expiry (clock w))).
  split; [eapply issued_token_decodes; eauto|].
  split; [intros k H1 H2 H3; now apply issued_claims_other|].
  apply issued_claims_keys.
Qed.

(** X9: expiry never goes backwards: of two issued tokens, whatever their
    payloads and secrets, the one issued later does not expire earlier. *)
Theorem create_jwt_token_exp_monotone (w1 w1' w2 w2' : World) (data1 data2 : nat)
    (d1 d2 : dict) (secret1 secret2 : pyval) (tok1 tok2 : string) :
  heap w1 !! data1 = Some d1 ->
  heap w2 !! data2 = Some d2 ->
  clock w1 <= clock w2 ->
  create_jwt_token jws_sign data1 secret1 w1 = (Ok tok1, w1') ->
  create_jwt_token jws_sign data2 secret2 w2 = (Ok tok2, w2') ->
  exists (c1 c2 : dict) (e1 e2 : Z),
    jwt_decode jws_verify tok1 secret1 = Ok c1 /\
    jwt_decode jws_verify tok2 secret2 = Ok c2 /\
    dict_get c1 "exp" = Some (PInt e1) /\
    dict_get c2 "exp" = Some (PInt e2) /\
    e1 <= e2.
Proof.
  intros H1 H2 Hle Hr1 Hr2.
  exists (issued_claims d1 (clamped_expiry (clock w1))),
         (issued_claims d2 (clamped_expiry (clock w2))),
         (timegm (clamped_expiry (clock w1))), (timegm (clamped_expiry (clock w2))).
  split; [eapply issued_token_decodes; eauto|].
  split; [eapply issued_token_decodes; eauto|].
  split; [apply issued_claims_exp|]. split; [apply issued_claims_exp|].
  now apply timegm_clamped_mono.
Qed.

(** X12: every token [generate_token] returns was signed with the secret
    the resolver obtained from Kong, and decodes with it to exactly two
    claims: the caller's issuer under [iss] and the clamped expiry under
    [exp].  The answer is the one-entry object [token]; the table is not
    touched, and every dict object that existed before the call has the
    entries it had. *)
Theorem generate_token_claims (w w' : World) (data : TokenData.t)
    (consumer_id : string) (r : pyval) :
  generate_token jws_sign data consumer_id w = (Ok r, w') ->
  exists (s : pyval) (tok : string),
    fst (get_secret_from_kong consumer_id w) = Ok s /\
    truthy s = true /\
    r = PDict [("token", PStr tok)] /\
    jwt_decode jws_verify tok s = Ok (token_claims (TokenData.iss data) (clock w)) /\
    (forall (l : nat) (d : dict), heap w !! l = Some d -> heap w' !! l = Some d) /\
    db w' = db w.
Proof.
  intros Hrun.
  destruct (get_secret_from_kong consumer_id w) as [[s|e] w1] eqn:Hs.
  2:{ unfold generate_token, bind in Hrun. rewrite Hs in Hrun. discriminate. }
  rewrite (generate_token_run jws_sign _ _ _ _ _ Hs) in Hrun.
  destruct (create_jwt_token _ _ _ _) as [[tok|e] w2] eqn:Hc; [|discriminate].
  injection Hrun as <- <-.
  destruct (get_secret_from_kong_ok_inv _ _ _ _ Hs)
    as (resp & kong_data & _ & _ & _ & _ & Ht & Hw1).
  exists s, tok. split; [reflexivity|]. split; [exact Ht|]. split; [reflexivity|].
  pose proof (issued_token_decodes jws_sign jws_verify jws_round_trip
                _ _ _ _ _ _ (heap_after_alloc _ _) Hc) as Hdec.
  assert (Hclock : clock w1 = clock w) by (subst w1; reflexivity).
  assert (Hheap : heap w1 = heap w) by (subst w1; reflexivity).
  assert (Hdb : db w1 = db w) by (subst w1; reflexivity).
  split.
  - rewrite Hdec. simpl clock. rewrite Hclock. reflexivity.
  - rewrite (create_jwt_token_run jws_sign _ _ _ _ (heap_after_alloc _ _)) in Hc.
    destruct (datetime_add _ _); [|discriminate].
    simpl in Hc. injection Hc as _ <-. simpl.
    rewrite Hheap, Hdb. split; [|reflexivity].
    intros l d Hl. now apply heap_alloc_old, heap_alloc_old.
Qed.

End IssuerMore.

Section IssuerFailures.

Variable jws_sign : dict -> pyval -> dict -> string -> Result string.

(** X8: the clamp does not rescue an expiry that [datetime] cannot hold.
    When the clock plus the validity window falls outside years 1..9999,
    the addition raises OverflowError before the clamp is reached: no token
    is issued and the signer is not called.  The copy of the payload has
    been made by then; the payload itself is as it was. *)
Theorem create_jwt_token_overflow (w : World) (data : nat) (d : dict)
    (secret : pyval) :
  heap w !! data = Some d ->
  ~ (datetime_min <= clock w + timedelta_minutes ACCESS_TOKEN_EXPIRE_MINUTES
       <= datetime_max) ->
  create_jwt_token jws_sign data secret w
    = (Err OverflowError, set_heap w (heap w ++ [d])).
Proof.
  intros Hd Hout. rewrite (create_jwt_token_run jws_sign w data d secret Hd).
  unfold datetime_add.
  destruct ((datetime_min <=? _) && (_ <=? datetime_max)) eqn:E; [|reflexivity].
  exfalso. apply Hout. apply andb_prop in E as [E1 E2].
  apply Z.leb_le in E1, E2. lia.
Qed.

(** X10: a token is issued exactly when the expiry fits a [datetime] and
    the signer accepts the claims, and it is then the signer's output for
    the payload with [exp] set to the clamped expiry, under algorithm HS256
    with headers [typ] = JWT and [alg] = HS256. *)
Theorem create_jwt_token_issues_iff (w : World) (data : nat) (d : dict)
    (secret : pyval) (tok : string) :
  heap w !! data = Some d ->
  (fst (create_jwt_token jws_sign data secret w) = Ok tok <->
   datetime_min <= clock w + timedelta_minutes ACCESS_TOKEN_EXPIRE_MINUTES
     <= datetime_max /\
   jws_sign (issued_claims d (clamped_expiry (clock w))) secret
            [("typ", PStr "JWT"); ("alg", PStr "HS256")] "HS256" = Ok tok).
Proof.
  intros Hd. rewrite (create_jwt_token_run jws_sign w data d secret Hd).
  unfold datetime_add.
  destruct ((datetime_min <=? _) && (_ <=? datetime_max)) eqn:E; simpl.
  - apply andb_prop in E as [E1 E2]. apply Z.leb_le in E1, E2.
    split; [intros H; split; [lia|exact H] | intros [_ H]; exact H].
  - split; [discriminate|]. intros [Hr _]. exfalso.
    apply andb_false_iff in E as [E|E]; apply Z.leb_gt in E; lia.
Qed.

(** X11: when Kong answers with another status than 200, [generate_token]
    fails with UpstreamError carrying that status, for any issuer; no dict
    object is allocated, the signer plays no part, and the only traces are
    the log line and the request of the resolver. *)
Theorem generate_token_upstream_error (w : World) (data : TokenData.t)
    (consumer_id : string) (resp : Response) :
  kong w (consumer_url consumer_id) = Some resp ->
  status_code resp <> 200 ->
  generate_token jws_sign data consumer_id w
    = (Err (UpstreamError (status_code resp)),
       set_requests (set_stdout w (stdout w ++ [("consumer_id: ", PStr consumer_id)]))
                    (requests w ++ [consumer_url consumer_id])).
Proof.
  intros Hk Hst. unfold generate_token, bind.
  rewrite get_secret_from_kong_run, Hk.
  apply Z.eqb_neq in Hst. now rewrite Hst.
Qed.

End IssuerFailures.

(** * Further properties of the CRUD operations *)

Lemma ref_new_rowid_fresh (t : gmap Z Row) : t !! RefDb.new_rowid t = None.
Proof.
  unfold RefDb.new_rowid, RefDb.largest_key.
  assert (H : forall k : Z, is_Some (t !! k) ->
                k <= map_fold (fun k _ acc => Z.max k acc) 0 t).
  { apply (map_fold_weak_ind
             (fun b (m : gmap Z Row) => forall k : Z, is_Some (m !! k) -> k <= b)).
    - intros k [x Hx]. now rewrite lookup_empty in Hx.
    - intros i x m r _ IH k Hk.
      destruct (decide (k = i)) as [->|Hne]; [lia|].
      rewrite lookup_insert_ne in Hk by auto. specialize (IH k Hk). lia. }
  destruct (t !! _) eqn:E; [|reflexivity].
  specialize (H _ (ex_intro _ _ E)). lia.
Qed.

Section TableMore.

Variable engine_echo : sql_op -> gmap Z Row -> list (string * pyval).
Variable new_rowid : gmap Z Row -> Z.

Lemma read_item_run (w : World) (item_id : Z) :
  read_item engine_echo item_id w =
    if int64 item_id then
      match db w !! item_id with
      | Some r => (Ok (Item.mk (Some item_id) (row_name r) (row_description r)),
                   logged_by engine_echo w (SqlGet item_id))
      | None => (Err (HTTPException 404 "Item not found"),
                 logged_by engine_echo w (SqlGet item_id))
      end
    else (Err OverflowError, logged_by engine_echo w (SqlGet item_id)).
Proof.
  unfold read_item, bind. rewrite session_get_run.
  destruct (int64 item_id); [|reflexivity].
  destruct (db w !! item_id); reflexivity.
Qed.


(** X14: [update_item] goes by the id of the path alone and the last
    writer wins.  For an id in the table and an item [b] that has a
    description: the [id] sent in the body plays no part, and after an
    earlier update of the same id, whether it went through or failed, the
    update with [b] returns the record and leaves the table as if it had
    been the only one. *)
Theorem update_item_last_writer_wins (w : World) (item_id : Z) (a b b' : Item.t)
    (r : Row) (d : string) :
  int64 item_id = true ->
  db w !! item_id = Some r ->
  Item.description b = Some d ->
  Item.name b' = Item.name b ->
  Item.description b' = Item.description b ->
  update_item engine_echo item_id b' w = update_item engine_echo item_id b w /\
  fst (update_item engine_echo item_id b (snd (update_item engine_echo item_id a w)))
    = fst (update_item engine_echo item_id b w) /\
  db (snd (update_item engine_echo item_id b (snd (update_item engine_echo item_id a w))))
    = db (snd (update_item engine_echo item_id b w)).
Proof.
  intros Hi Hr Hd Hn Hd'. split.
  - rewrite (update_item_run engine_echo w item_id b r d Hi Hr Hd).
    rewrite (update_item_run engine_echo w item_id b' r d Hi Hr) by congruence.
    now rewrite Hn.
  - rewrite (update_item_run engine_echo w item_id b r d Hi Hr Hd).
    destruct (Item.description a) as [da|] eqn:Ha.
    + rewrite (update_item_run engine_echo w item_id a r da Hi Hr Ha). simpl.
      erewrite update_item_run; [|exact Hi|simpl; apply lookup_insert_eq|exact Hd].
      simpl. split; [reflexivity|]. apply insert_insert_eq.
    + rewrite (update_item_null_run engine_echo w item_id a r Hi Hr Ha). simpl.
      erewrite update_item_run; [|exact Hi|simpl; exact Hr|exact Hd].
      simpl. split; reflexivity.
Qed.

(** X15: [delete_item] on an id in the table returns nothing, removes that
    row and no other, and the id is then unknown to all three handlers:
    reading, updating and deleting it again each give 404 and leave the
    table as it is. *)
Theorem delete_item_removes (w : World) (item_id : Z) (r : Row) (item : Item.t) :
  int64 item_id = true ->
  db w !! item_id = Some r ->
  exists w' : World,
    delete_item engine_echo item_id w = (Ok tt, w') /\
    db w' !! item_id = None /\
    (forall j : Z, j <> item_id -> db w' !! j = db w !! j) /\
    heap w' = heap w /\ requests w' = requests w /\
    (fst (read_item engine_echo item_id w') = Err (HTTPException 404 "Item not found") /\
     only_logs w' (snd (read_item engine_echo item_id w'))) /\
    (fst (update_item engine_echo item_id item w')
       = Err (HTTPException 404 "Item not found") /\
     only_logs w' (snd (update_item engine_echo item_id item w'))) /\
    (fst (delete_item engine_echo item_id w') = Err (HTTPException 404 "Item not found") /\
     only_logs w' (snd (delete_item engine_echo item_id w'))).
Proof.
  intros Hi Hr. eexists. split.
  { unfold delete_item, bind. rewrite (session_get_present engine_echo w item_id r Hi Hr).
    unfold session_commit_delete, sql_echo, bind. simpl. reflexivity. }
  match goal with |- db ?W !! _ = None /\ _ => set (w' := W) end.
  assert (Hgone : db w' !! item_id = None)
    by (subst w'; simpl; apply lookup_delete_eq).
  split; [exact Hgone|].
  split; [intros j Hj; subst w'; simpl; now rewrite lookup_delete_ne|].
  do 2 (split; [reflexivity|]).
  destruct (handlers_absent engine_echo w' item_id item Hi Hgone) as (-> & -> & ->).
  simpl. repeat split; apply only_logs_echo.
Qed.

Lemma create_item_run (w : World) (item : Item.t) :
  create_item engine_echo new_rowid item w =
    let w1 := logged_by engine_echo w
                (SqlInsert (Item.id item) (Item.name item) (Item.description item)) in
    let pk := match Item.id item with Some pk => pk | None => new_rowid (db w) end in
    if negb (int64 pk) then (Err OverflowError, w1)
    else
      match Item.description item, db w !! pk with
      | None, _ => (Err IntegrityError, w1)
      | Some _, Some _ => (Err IntegrityError, w1)
      | Some d, None =>
          (Ok (Item.mk (Some pk) (Item.name item) (Some d)),
           set_db w1 (<[pk := mkRow (Item.name item) (Some d)]> (db w)))
      end.
Proof.
  unfold create_item, session_commit_insert, sql_echo, bind. simpl.
  destruct (negb _); [reflexivity|].
  destruct (Item.description item); [|reflexivity].
  destruct (db w !! _); reflexivity.
Qed.

(** [create_item] goes through for an item with a description and no id
    when the database assigns a 64-bit key that is not in use. *)
Lemma create_item_returns (w : World) (item : Item.t) (d : string) :
  Item.id item = None ->
  Item.description item = Some d ->
  int64 (new_rowid (db w)) = true ->
  db w !! new_rowid (db w) = None ->
  fst (create_item engine_echo new_rowid item w)
    = Ok (Item.mk (Some (new_rowid (db w))) (Item.name item) (Some d)).
Proof.
  intros Hid Hd Hi Hfresh. rewrite create_item_run. simpl.
  rewrite Hid, Hi, Hd, Hfresh. reflexivity.
Qed.

(** X16: when [create_item] returns, the record it returns has the name
    and description it was given (a description there was) and an id within
    the 64-bit range that was not in the table: the id of the item if it
    had one, the key assigned by the database if not.  Reading that id
    gives the same record, and every other row, the dict objects and the
    requests are as before. *)
Theorem create_item_stores (w w' : World) (item created : Item.t) :
  create_item engine_echo new_rowid item w = (Ok created, w') ->
  exists (pk : Z) (d : string),
    created = Item.mk (Some pk) (Item.name item) (Some d) /\
    Item.description item = Some d /\
    pk = match Item.id item with Some k => k | None => new_rowid (db w) end /\
    int64 pk = true /\
    db w !! pk = None /\
    fst (read_item engine_echo pk w') = Ok created /\
    (forall j : Z, j <> pk -> db w' !! j = db w !! j) /\
    heap w' = heap w /\ requests w' = requests w.
Proof.
  rewrite create_item_run. simpl.
  set (pk := match Item.id item with Some k => k | None => new_rowid (db w) end).
  destruct (int64 pk) eqn:Hi; simpl; [|discriminate].
  destruct (Item.description item) as [d|] eqn:Hd; [|discriminate].
  destruct (db w !! pk) eqn:Hfresh; [discriminate|].
  intros [= <- <-]. exists pk, d.
  do 5 (split; [reflexivity || assumption|]).
  split.
  - rewrite read_item_run, Hi. simpl. now rewrite lookup_insert_eq.
  - split; [intros j Hj; simpl; now rewrite lookup_insert_ne|]. split; reflexivity.
Qed.

(** X17: [create_item] with an id that is already in the table fails with
    the database's IntegrityError, with or without a description, and
    leaves the table as it was: the stored row keeps its name and
    description. *)
Theorem create_item_duplicate_id (w : World) (item : Item.t) (pk : Z) (r : Row) :
  Item.id item = Some pk ->
  int64 pk = true ->
  db w !! pk = Some r ->
  fst (create_item engine_echo new_rowid item w) = Err IntegrityError /\
  only_logs w (snd (create_item engine_echo new_rowid item w)) /\
  fst (read_item engine_echo pk (snd (create_item engine_echo new_rowid item w)))
    = Ok (Item.mk (Some pk) (row_name r) (row_description r)).
Proof.
  intros Hid Hi Hr. rewrite create_item_run. simpl. rewrite Hid, Hi, Hr. simpl.
  assert (H : forall (w1 : World), db w1 = db w ->
            fst (read_item engine_echo pk w1)
              = Ok (Item.mk (Some pk) (row_name r) (row_description r))).
  { intros w1 Hw. rewrite read_item_run, Hi, Hw, Hr. reflexivity. }
  destruct (Item.description item); simpl;
    (split; [reflexivity|]; split; [apply only_logs_echo|]; now apply H).
Qed.

(** X18: when [create_item] returns a record, deleting the id of that
    record goes through and brings the table back to what it was before
    the item was created. *)
Theorem create_then_delete (w w' : World) (item created : Item.t) (pk : Z) :
  create_item engine_echo new_rowid item w = (Ok created, w') ->
  Item.id created = Some pk ->
  fst (delete_item engine_echo pk w') = Ok tt /\
  db (snd (delete_item engine_echo pk w')) = db w.
Proof.
  rewrite create_item_run. simpl.
  set (k := match Item.id item with Some k => k | None => new_rowid (db w) end).
  destruct (int64 k) eqn:Hi; simpl; [|discriminate].
  destruct (Item.description item) as [d|] eqn:Hd; [|discriminate].
  destruct (db w !! k) eqn:Hfresh; [discriminate|].
  intros [= <- <-] [= <-].
  unfold delete_item, bind. rewrite session_get_run, Hi. simpl.
  rewrite lookup_insert_eq. simpl.
  unfold session_commit_delete, sql_echo, bind. simpl.
  split; [reflexivity|]. now apply delete_insert_id.
Qed.

End TableMore.

(** * The further properties, run on the scenario *)

Lemma get_secret_from_kong_logs_secret_witness :
  exists (s : pyval) (w' : World),
    get_secret_from_kong "consumer-1" (scenario 0) = (Ok s, w') /\
    exists kong_data : pyval,
      (exists resp : Response,
         kong (scenario 0) (consumer_url "consumer-1") = Some resp /\
         json resp = Some kong_data) /\
      stdout w' = stdout (scenario 0) ++ [("consumer_id: ", PStr "consumer-1");
                                         ("Kong Data: ", kong_data);
                                         ("Secret: ", s)].
Proof.
  eexists. eexists. split; [vm_compute; reflexivity|].
  eapply (get_secret_from_kong_logs_secret (scenario 0) _ "consumer-1").
  vm_compute; reflexivity.
Defined.

Lemma get_secret_from_kong_returns_first_secret_witness :
  exists (s : pyval) (w' : World),
    get_secret_from_kong "consumer-1" (scenario 0) = (Ok s, w') /\
    exists (resp : Response) (kong_data : pyval),
      kong (scenario 0) (consumer_url "consumer-1") = Some resp /\
      status_code resp = 200 /\
      json resp = Some kong_data /\
      first_secret kong_data = Ok s /\
      truthy s = true /\ s ∉ falsy_values.
Proof.
  eexists. eexists. split; [vm_compute; reflexivity|].
  eapply (get_secret_from_kong_returns_first_secret (scenario 0) _ "consumer-1").
  vm_compute; reflexivity.
Defined.


Lemma get_secret_from_kong_not_found_iff_witness :
  kong null_secret_world (consumer_url "consumer-1")
    = Some (credentials 200 [PDict [("secret", PNone)]]) /\
  (fst (get_secret_from_kong "consumer-1" null_secret_world) = Err NotFoundError
     <-> PNone ∈ falsy_values).
Proof.
  split; [reflexivity|].
  apply (get_secret_from_kong_not_found_iff null_secret_world "consumer-1"
           (credentials 200 [PDict [("secret", PNone)]])
           [("data", PList [PDict [("secret", PNone)]]); ("next", PNone)]
           [("secret", PNone)] [] PNone); reflexivity.
Defined.

Lemma create_jwt_token_keeps_claims_witness :
  heap scenario_with_exp !! 0%nat = Some payload_with_exp /\
  exists (tok : string) (w' : World),
    create_jwt_token RefJose.sign 0%nat (PStr "s3cr3t") scenario_with_exp
      = (Ok tok, w') /\
    exists c : dict,
      jwt_decode RefJose.verify tok (PStr "s3cr3t") = Ok c /\
      (forall k : string, k <> "exp" -> k <> "iat" -> k <> "nbf" ->
         dict_get c k = dict_get payload_with_exp k) /\
      dict_keys c = match dict_get payload_with_exp "exp" with
                    | Some _ => dict_keys payload_with_exp
                    | None => dict_keys payload_with_exp ++ ["exp"]
                    end.
Proof.
  split; [reflexivity|].
  eexists. eexists. split; [vm_compute; reflexivity|].
  eapply (create_jwt_token_keeps_claims RefJose.sign RefJose.verify ref_round_trip
            scenario_with_exp _ 0%nat payload_with_exp);
    [reflexivity | vm_compute; reflexivity].
Defined.

Lemma create_jwt_token_exp_monotone_witness :
  clock (scenario 1700000000123456) <= clock (scenario (datetime 2038 1 19 3 13 0 0)) /\
  exists (tok1 tok2 : string) (w1' w2' : World),
    create_jwt_token RefJose.sign 0%nat (PStr "s3cr3t") (scenario 1700000000123456)
      = (Ok tok1, w1') /\
    create_jwt_token RefJose.sign 0%nat (PStr "other")
                     (scenario (datetime 2038 1 19 3 13 0 0)) = (Ok tok2, w2') /\
    exists (c1 c2 : dict) (e1 e2 : Z),
      jwt_decode RefJose.verify tok1 (PStr "s3cr3t") = Ok c1 /\
      jwt_decode RefJose.verify tok2 (PStr "other") = Ok c2 /\
      dict_get c1 "exp" = Some (PInt e1) /\
      dict_get c2 "exp" = Some (PInt e2) /\
      e1 <= e2.
Proof.
  split; [vm_compute; discriminate|].
  eexists. eexists. eexists. eexists.
  split; [vm_compute; reflexivity|]. split; [vm_compute; reflexivity|].
  eapply (create_jwt_token_exp_monotone RefJose.sign RefJose.verify ref_round_trip
            (scenario 1700000000123456) _ (scenario (datetime 2038 1 19 3 13 0 0)) _
            0%nat 0%nat scenario_payload scenario_payload);
    [reflexivity | reflexivity | vm_compute; discriminate
    | vm_compute; reflexivity | vm_compute; reflexivity].
Defined.

Lemma generate_token_claims_witness :
  exists (r : pyval) (w' : World),
    generate_token RefJose.sign (TokenData.mk "service-a") "consumer-1"
                   (scenario 1700000000123456) = (Ok r, w') /\
    exists (s : pyval) (tok : string),
      fst (get_secret_from_kong "consumer-1" (scenario 1700000000123456)) = Ok s /\
      truthy s = true /\
      r = PDict [("token", PStr tok)] /\
      jwt_decode RefJose.verify tok s = Ok (token_claims "service-a" 1700000000123456) /\
      (forall (l : nat) (d : dict),
         heap (scenario 1700000000123456) !! l = Some d -> heap w' !! l = Some d) /\
      db w' = db (scenario 1700000000123456).
Proof.
  eexists. eexists. split; [vm_compute; reflexivity|].
  eapply (generate_token_claims RefJose.sign RefJose.verify ref_round_trip
            (scenario 1700000000123456) _ (TokenData.mk "service-a") "consumer-1").
  vm_compute; reflexivity.
Defined.

Lemma create_jwt_token_overflow_witness :
  heap (scenario datetime_max) !! 0%nat = Some scenario_payload /\
  ~ (datetime_min
       <= clock (scenario datetime_max) + timedelta_minutes ACCESS_TOKEN_EXPIRE_MINUTES
       <= datetime_max) /\
  create_jwt_token RefJose.sign 0%nat (PStr "s3cr3t") (scenario datetime_max)
    = (Err OverflowError,
       set_heap (scenario datetime_max)
                (heap (scenario datetime_max) ++ [scenario_payload])).
Proof.
  assert (Hout : ~ (datetime_min
                      <= clock (scenario datetime_max)
                         + timedelta_minutes ACCESS_TOKEN_EXPIRE_MINUTES
                      <= datetime_max)).
  { intros [_ H]. vm_compute in H. apply H. reflexivity. }
  split; [reflexivity|]. split; [exact Hout|].
  apply (create_jwt_token_overflow RefJose.sign (scenario datetime_max) 0%nat
           scenario_payload (PStr "s3cr3t")); [reflexivity | exact Hout].
Defined.

Lemma create_jwt_token_issues_iff_witness :
  heap (scenario 1700000000123456) !! 0%nat = Some scenario_payload /\
  exists tok : string,
    fst (create_jwt_token RefJose.sign 0%nat (PStr "s3cr3t") (scenario 1700000000123456))
      = Ok tok /\
    (fst (create_jwt_token RefJose.sign 0%nat (PStr "s3cr3t") (scenario 1700000000123456))
       = Ok tok <->
     datetime_min
       <= clock (scenario 1700000000123456) + timedelta_minutes ACCESS_TOKEN_EXPIRE_MINUTES
       <= datetime_max /\
     RefJose.sign (issued_claims scenario_payload
                                 (clamped_expiry (clock (scenario 1700000000123456))))
                  (PStr "s3cr3t") [("typ", PStr "JWT"); ("alg", PStr "HS256")] "HS256"
       = Ok tok).
Proof.
  split; [reflexivity|].
  eexists. split; [vm_compute; reflexivity|].
  apply (create_jwt_token_issues_iff RefJose.sign (scenario 1700000000123456) 0%nat
           scenario_payload (PStr "s3cr3t")).
  reflexivity.
Defined.

Lemma generate_token_upstream_error_witness :
  kong unknown_consumer_world (consumer_url "consumer-1")
    = Some (credentials 404 [PDict [("secret", PStr "s3cr3t")]]) /\
  generate_token RefJose.sign (TokenData.mk "service-a") "consumer-1"
                 unknown_consumer_world
    = (Err (UpstreamError 404),
       set_requests
         (set_stdout unknown_consumer_world
            (stdout unknown_consumer_world ++ [("consumer_id: ", PStr "consumer-1")]))
         (requests unknown_consumer_world ++ [consumer_url "consumer-1"])).
Proof.
  split; [reflexivity|].
  apply (generate_token_upstream_error RefJose.sign unknown_consumer_world
           (TokenData.mk "service-a") "consumer-1"
           (credentials 404 [PDict [("secret", PStr "s3cr3t")]]));
    [reflexivity | discriminate].
Defined.

Lemma update_item_last_writer_wins_witness :
  int64 1 = true /\
  db (scenario 0) !! 1 = Some (mkRow "milk" (Some "two litres")) /\
  update_item RefDb.echo 1 (Item.mk (Some 7) "bread" (Some "sliced")) (scenario 0)
    = update_item RefDb.echo 1 sliced_bread (scenario 0) /\
  fst (update_item RefDb.echo 1 sliced_bread
         (snd (update_item RefDb.echo 1 bread (scenario 0))))
    = fst (update_item RefDb.echo 1 sliced_bread (scenario 0)) /\
  db (snd (update_item RefDb.echo 1 sliced_bread
             (snd (update_item RefDb.echo 1 bread (scenario 0)))))
    = db (snd (update_item RefDb.echo 1 sliced_bread (scenario 0))).
Proof.
  split; [reflexivity|]. split; [reflexivity|].
  apply (update_item_last_writer_wins RefDb.echo (scenario 0) 1 bread sliced_bread
           (Item.mk (Some 7) "bread" (Some "sliced"))
           (mkRow "milk" (Some "two litres")) "sliced"); reflexivity.
Defined.

Lemma delete_item_removes_witness :
  int64 1 = true /\
  db (scenario 0) !! 1 = Some (mkRow "milk" (Some "two litres")) /\
  exists w' : World,
    delete_item RefDb.echo 1 (scenario 0) = (Ok tt, w') /\
    db w' !! 1 = None /\
    (forall j : Z, j <> 1 -> db w' !! j = db (scenario 0) !! j) /\
    heap w' = heap (scenario 0) /\ requests w' = requests (scenario 0) /\
    (fst (read_item RefDb.echo 1 w') = Err (HTTPException 404 "Item not found") /\
     only_logs w' (snd (read_item RefDb.echo 1 w'))) /\
    (fst (update_item RefDb.echo 1 bread w') = Err (HTTPException 404 "Item not found") /\
     only_logs w' (snd (update_item RefDb.echo 1 bread w'))) /\
    (fst (delete_item RefDb.echo 1 w') = Err (HTTPException 404 "Item not found") /\
     only_logs w' (snd (delete_item RefDb.echo 1 w'))).
Proof.
  split; [reflexivity|]. split; [reflexivity|].
  apply (delete_item_removes RefDb.echo (scenario 0) 1
           (mkRow "milk" (Some "two litres")) bread); reflexivity.
Defined.

Lemma create_item_duplicate_id_witness :
  int64 1 = true /\
  db (scenario 0) !! 1 = Some (mkRow "milk" (Some "two litres")) /\
  fst (create_item RefDb.echo RefDb.new_rowid (Item.mk (Some 1) "bread" (Some "sliced"))
         (scenario 0)) = Err IntegrityError /\
  only_logs (scenario 0)
    (snd (create_item RefDb.echo RefDb.new_rowid
            (Item.mk (Some 1) "bread" (Some "sliced")) (scenario 0))) /\
  fst (read_item RefDb.echo 1
         (snd (create_item RefDb.echo RefDb.new_rowid
                 (Item.mk (Some 1) "bread" (Some "sliced")) (scenario 0))))
    = Ok (Item.mk (Some 1) "milk" (Some "two litres")).
Proof.
  split; [reflexivity|]. split; [reflexivity|].
  apply (create_item_duplicate_id RefDb.echo RefDb.new_rowid (scenario 0)
           (Item.mk (Some 1) "bread" (Some "sliced")) 1
           (mkRow "milk" (Some "two litres"))); reflexivity.
Defined.

Lemma create_item_stores_witness :
  exists (created : Item.t) (w' : World),
    create_item RefDb.echo RefDb.new_rowid sliced_bread (scenario 0) = (Ok created, w') /\
    exists (pk : Z) (d : string),
      created = Item.mk (Some pk) (Item.name sliced_bread) (Some d) /\
      Item.description sliced_bread = Some d /\
      pk = match Item.id sliced_bread with
           | Some k => k
           | None => RefDb.new_rowid (db (scenario 0))
           end /\
      int64 pk = true /\
      db (scenario 0) !! pk = None /\
      fst (read_item RefDb.echo pk w') = Ok created /\
      (forall j : Z, j <> pk -> db w' !! j = db (scenario 0) !! j) /\
      heap w' = heap (scenario 0) /\ requests w' = requests (scenario 0).
Proof.
  exists (Item.mk (Some 2) "bread" (Some "sliced")).
  eexists. split; [reflexivity|].
  eapply (create_item_stores RefDb.echo RefDb.new_rowid (scenario 0) _ sliced_bread).
  reflexivity.
Defined.

Lemma create_then_delete_witness :
  exists w' : World,
    create_item RefDb.echo RefDb.new_rowid sliced_bread (scenario 0)
      = (Ok (Item.mk (Some 2) "bread" (Some "sliced")), w') /\
    fst (delete_item RefDb.echo 2 w') = Ok tt /\
    db (snd (delete_item RefDb.echo 2 w')) = db (scenario 0).
Proof.
  eexists. split; [reflexivity|].
  eapply (create_then_delete RefDb.echo RefDb.new_rowid (scenario 0) _ sliced_bread
            (Item.mk (Some 2) "bread" (Some "sliced")) 2); reflexivity.
Defined.
